(** * tasp::krb5 -- credential lifecycle of a long-running service

    A shallow embedding of [src/src/krb5_impl.cpp]: the wrappers around the
    Kerberos library ([Principal], [Creds], [Keytab], [Ccache]) and the two
    entry points of [ServiceImpl], [CreateCcache] and [UpdateCcache].

    The Kerberos library, the filesystem and the configuration singleton are
    external to the repository.  They are an interface ([Krb5Lib]) over an
    abstract world; every theorem of the general part holds for every
    implementation of it.  A small simulated library ([SimWorld]) gives the
    concrete scenarios. *)

From Stdlib Require Import ZArith String List Bool Lia DecimalString.
Import ListNotations.

Local Open Scope string_scope.
Local Open Scope list_scope.
Local Open Scope Z_scope.

(** ** Native data, as <krb5.h> declares it *)

(** [krb5_error_code] and [krb5_timestamp] are 32-bit signed integers.  The
    code only compares them, so no wrap-around is involved. *)
Definition krb5_error_code := Z.
Definition krb5_timestamp := Z.

(** Opaque library handles are pointers: [None] is [nullptr]. *)
Definition krb5_context := option N.
Definition krb5_keytab := option N.
Definition krb5_ccache := option N.
Definition krb5_kt_cursor := option N.

Record krb5_principal_data := {
  realm : string;
  components : list string
}.

(** [krb5_principal] is a pointer to [krb5_principal_data]. *)
Definition krb5_principal := option krb5_principal_data.

Record krb5_ticket_times := {
  authtime : krb5_timestamp;
  starttime : krb5_timestamp;
  endtime : krb5_timestamp;
  renew_till : krb5_timestamp
}.

Record krb5_creds := {
  client : krb5_principal;
  server : krb5_principal;
  times : krb5_ticket_times;
  ticket : string
}.

Record krb5_keytab_entry := {
  principal : krb5_principal;
  vno : Z
}.

Definition KRB5_TGS_NAME : string := "krbtgt".

(** ** What a run leaves behind: library calls and log lines, in order *)

Inductive NativeCall :=
| Call_timeofday
| Call_timestamp_to_string (t : krb5_timestamp)
| Call_copy_principal
| Call_free_principal
| Call_kt_resolve (name : string)
| Call_kt_default_name
| Call_kt_start_seq_get
| Call_kt_next_entry
| Call_kt_end_seq_get
| Call_kt_free_entry
| Call_get_init_creds_keytab
| Call_cc_resolve (name : string)
| Call_cc_default_name
| Call_cc_initialize
| Call_cc_store_cred
| Call_cc_retrieve_cred
| Call_cc_get_principal
| Call_get_renewed_creds
| Call_build_principal_ext (r : string)
| Call_setenv (name value : string)
| Call_fs_exists (path : string).

Inductive Event :=
| Native (c : NativeCall)
| CfgRead (key : string)
| KrbError (code : krb5_error_code) (message : string)
| LogError (text : string)
| LogInfo (text : string).

(** The calls that write the credential cache or ask the KDC for a ticket. *)
Definition mutating (e : Event) : bool :=
  match e with
  | Native Call_cc_initialize
  | Native Call_cc_store_cred
  | Native Call_get_renewed_creds
  | Native Call_get_init_creds_keytab => true
  | _ => false
  end.

(** ** The external collaborators

    A call of the C API returns an error code and leaves its out-parameter in
    some state; the pair is what the caller can observe afterwards, whether
    the code is zero or not.  Queries leave the world as it is; the calls
    that write the cache, talk to the KDC or change the environment return
    the next world. *)
Class Krb5Lib (W : Type) := {
  krb5_timeofday : W -> krb5_context -> krb5_error_code * krb5_timestamp;
  krb5_timestamp_to_string : W -> krb5_timestamp -> string;
  krb5_copy_principal :
    W -> krb5_context -> krb5_principal -> krb5_error_code * krb5_principal;
  krb5_kt_resolve :
    W -> krb5_context -> string -> krb5_error_code * krb5_keytab;
  krb5_kt_default_name : W -> krb5_context -> krb5_error_code * string;
  krb5_kt_start_seq_get :
    W -> krb5_context -> krb5_keytab -> krb5_error_code * krb5_kt_cursor;
  krb5_kt_next_entry :
    W -> krb5_context -> krb5_keytab -> krb5_kt_cursor ->
    krb5_error_code * (krb5_keytab_entry * krb5_kt_cursor);
  krb5_kt_end_seq_get :
    W -> krb5_context -> krb5_keytab -> krb5_kt_cursor -> krb5_error_code;
  krb5_kt_free_entry :
    W -> krb5_context -> krb5_keytab_entry -> krb5_error_code;
  krb5_get_init_creds_keytab :
    W -> krb5_context -> krb5_principal -> krb5_keytab ->
    (krb5_error_code * krb5_creds) * W;
  krb5_cc_resolve :
    W -> krb5_context -> string -> krb5_error_code * krb5_ccache;
  krb5_cc_default_name : W -> krb5_context -> string;
  krb5_cc_initialize :
    W -> krb5_context -> krb5_ccache -> krb5_principal -> krb5_error_code * W;
  krb5_cc_store_cred :
    W -> krb5_context -> krb5_ccache -> krb5_creds -> krb5_error_code * W;
  krb5_cc_retrieve_cred :
    W -> krb5_context -> krb5_ccache -> krb5_creds ->
    krb5_error_code * krb5_creds;
  krb5_cc_get_principal :
    W -> krb5_context -> krb5_ccache -> krb5_error_code * krb5_principal;
  krb5_get_renewed_creds :
    W -> krb5_context -> krb5_creds -> krb5_principal -> krb5_ccache ->
    (krb5_error_code * krb5_creds) * W;
  krb5_build_principal_ext :
    W -> krb5_context -> string -> list string ->
    krb5_error_code * krb5_principal;
  setenv : W -> string -> string -> W;
  (** [fs::exists]; [None] when it throws [filesystem_error]. *)
  fs_exists : W -> string -> option bool;
  (** [configGlobal::instance().variable(key)] and [variable(key, default)]. *)
  cfg_variable : W -> string -> string;
  cfg_variable_or : W -> string -> string -> string
}.

(** ** Runs *)

(** Dereferencing a null [shared_ptr] or a null [krb5_principal] is undefined
    behaviour: the run stops there. *)
Inductive outcome (A : Type) :=
| Returns (a : A)
| NullDeref.
Arguments Returns {A} a.
Arguments NullDeref {A}.

Record run (W A : Type) := Run {
  value : outcome A;
  after : W;
  events : list Event
}.
Arguments Run {W A}.
Arguments value {W A}.
Arguments after {W A}.
Arguments events {W A}.

Definition M (W A : Type) := W -> run W A.

Definition ret {W A} (a : A) : M W A := fun w => Run (Returns a) w [].

Definition bind {W A B} (m : M W A) (k : A -> M W B) : M W B :=
  fun w =>
    match m w with
    | Run (Returns a) w1 e1 =>
        match k a w1 with
        | Run v w2 e2 => Run v w2 (e1 ++ e2)
        end
    | Run NullDeref w1 e1 => Run NullDeref w1 e1
    end.

Definition fault {W A} : M W A := fun w => Run NullDeref w [].

Definition emit {W} (e : Event) : M W unit := fun w => Run (Returns tt) w [e].

(** A library call that only reads the world. *)
Definition query {W A} (c : NativeCall) (f : W -> A) : M W A :=
  fun w => Run (Returns (f w)) w [Native c].

(** A library call that changes the world. *)
Definition command {W A} (c : NativeCall) (f : W -> A * W) : M W A :=
  fun w => Run (Returns (fst (f w))) (snd (f w)) [Native c].

Definition when_ {W} (b : bool) (m : M W unit) : M W unit :=
  if b then m else ret tt.

Declare Scope run_scope.
Delimit Scope run_scope with run.
Notation "x <- m ;; k" := (bind m (fun x => k))
  (at level 61, m at next level, right associativity) : run_scope.
Notation "m ;; k" := (bind m (fun _ => k))
  (at level 61, right associativity) : run_scope.
Local Open Scope run_scope.

(** [code != 0] *)
Definition failed (code : krb5_error_code) : bool := negb (code =? 0).

(** ** The C++ objects *)

(** [std::shared_ptr<T>] and [std::unique_ptr<T>]: [None] is [nullptr]. *)
Definition shared_ptr (T : Type) := option T.

Record Principal := {
  Principal_context_ : krb5_context;
  principal_ : krb5_principal
}.

Record Creds := {
  Creds_context_ : krb5_context;
  creds_ : krb5_creds
}.

Inductive State := State_None | State_Renew | State_Reinit.

Record FileInterface := {
  context_ : krb5_context;
  fullpath_ : string;
  program_type_ : string
}.

Record Keytab := {
  Keytab_base : FileInterface;
  keytab_ : krb5_keytab
}.

Record Ccache := {
  Ccache_base : FileInterface;
  ccache_ : krb5_ccache
}.

Record ServiceImpl := {
  svc_keytab_ : shared_ptr Keytab;
  svc_ccache_ : shared_ptr Ccache
}.

Section Program.
Context {W : Type} {lib : Krb5Lib W}.

(** *** Context *)

Definition PrintError (code : krb5_error_code) (message : string)
  : M W unit :=
  emit (KrbError code message).

(** *** Principal *)

Definition Principal_new (ctx : krb5_context) (p : krb5_principal)
  : M W Principal :=
  r <- query Call_copy_principal (fun w => krb5_copy_principal w ctx p) ;;
  when_ (failed (fst r)) (PrintError (fst r) "krb5_copy_principal") ;;
  ret {| Principal_context_ := ctx; principal_ := snd r |}.

(** [principal_->realm.data] *)
Definition Principal_Realm (self : Principal) : M W string :=
  match principal_ self with
  | Some d => ret (realm d)
  | None => fault
  end.

Definition Principal_Ptr (self : Principal) : krb5_principal :=
  principal_ self.

(** *** Creds *)

Definition Creds_new (ctx : krb5_context) (creds : krb5_creds) : Creds :=
  {| Creds_context_ := ctx; creds_ := creds |}.

Definition Creds_StartTime (self : Creds) : krb5_timestamp :=
  starttime (times (creds_ self)).

Definition Creds_EndTime (self : Creds) : krb5_timestamp :=
  endtime (times (creds_ self)).

Definition Creds_RenewTime (self : Creds) : krb5_timestamp :=
  renew_till (times (creds_ self)).

Definition Creds_Ptr (self : Creds) : krb5_creds := creds_ self.

(** [now] starts at 0 and is the out-parameter of [krb5_timeofday]; the
    error code of the call is not looked at. *)
Definition Creds_State (self : Creds) : M W State :=
  r <- query Call_timeofday
         (fun w => krb5_timeofday w (Creds_context_ self)) ;;
  let now := snd r in
  ret (if now >=? Creds_EndTime self
       then (if now >=? Creds_RenewTime self
             then State_Reinit else State_Renew)
       else State_None).

Definition Creds_TimeToString (timestamp : krb5_timestamp) : M W string :=
  query (Call_timestamp_to_string timestamp)
        (fun w => krb5_timestamp_to_string w timestamp).

Definition nl : string := String (Ascii.ascii_of_nat 10) EmptyString.

(** The end time is appended through a call spelled [SndTime()] in the
    source, which declares no such method; it is read as [EndTime()]. *)
Definition Creds_TimesInfo (self : Creds) : M W string :=
  r <- query Call_timeofday
         (fun w => krb5_timeofday w (Creds_context_ self)) ;;
  let now := snd r in
  s_now <- Creds_TimeToString now ;;
  s_start <- Creds_TimeToString (Creds_StartTime self) ;;
  s_end <- Creds_TimeToString (Creds_EndTime self) ;;
  s_renew <- Creds_TimeToString (Creds_RenewTime self) ;;
  ret ("now: " ++ s_now ++ nl
       ++ "start time: " ++ s_start ++ nl
       ++ "end time: " ++ s_end ++ nl
       ++ "renew possible until: " ++ s_renew)%string.

(** *** FileInterface *)

Definition is_null {T} (p : shared_ptr T) : bool :=
  match p with Some _ => false | None => true end.

(** [p->...] *)
Definition deref {T} (p : shared_ptr T) : M W T :=
  match p with Some x => ret x | None => fault end.

Definition FileInterface_new (ctx : krb5_context) (fullpath : string)
  : FileInterface :=
  {| context_ := ctx; fullpath_ := fullpath; program_type_ := "manual" |}.

(** [buf.rfind(prefix, 0) == 0] holds when [buf] starts with [prefix];
    [buf.erase(0, prefix.length())] drops it. *)
Definition strip_prefix (pre buf : string) : string :=
  if String.prefix pre buf
  then substring (String.length pre)
                 (String.length buf - String.length pre) buf
  else buf.

Definition FileInterface_FileExists (self : FileInterface) : M W bool :=
  let buf := strip_prefix "FILE:" (fullpath_ self) in
  r <- query (Call_fs_exists buf) (fun w => fs_exists w buf) ;;
  match r with
  | Some res => ret res
  | None => emit (LogError "Ошибка доступа к файлу") ;; ret false
  end.

Definition FileInterface_FileName (self : FileInterface) : string :=
  fullpath_ self.

Definition FileInterface_ProgramType (self : FileInterface) : string :=
  program_type_ self.

Definition cfg_read (key : string) : M W string :=
  fun w => Run (Returns (cfg_variable w key)) w [CfgRead key].

Definition cfg_read_or (key default : string) : M W string :=
  fun w => Run (Returns (cfg_variable_or w key default)) w [CfgRead key].

(** [DefaultName] and [ConfigName] are the pure virtual methods; the
    concrete store passes its own. *)
Definition FileInterface_Init (DefaultName ConfigName : M W string)
    (self : FileInterface) : M W FileInterface :=
  program_type <- cfg_read_or "system/type" "manual" ;;
  if (fullpath_ self =? "")%string
  then
    fullpath <- (if (program_type =? "manual")%string
                 then DefaultName else ConfigName) ;;
    ret {| context_ := context_ self;
           fullpath_ := fullpath;
           program_type_ := program_type |}
  else
    ret {| context_ := context_ self;
           fullpath_ := fullpath_ self;
           program_type_ := program_type |}.

(** *** Keytab *)

Definition Keytab_DefaultName (ctx : krb5_context) : M W string :=
  r <- query Call_kt_default_name (fun w => krb5_kt_default_name w ctx) ;;
  when_ (failed (fst r)) (PrintError (fst r) "krb5_kt_default_name") ;;
  ret (snd r).

Definition Keytab_ConfigName : M W string :=
  fullpath <- cfg_read "system/progpath" ;;
  cfg_read_or "kerberos/keytab" (fullpath ++ "/keytab")%string.

Definition Keytab_new (ctx : krb5_context) (fullpath : string)
  : M W Keytab :=
  base <- FileInterface_Init (Keytab_DefaultName ctx) Keytab_ConfigName
            (FileInterface_new ctx fullpath) ;;
  r <- query (Call_kt_resolve (FileInterface_FileName base))
         (fun w => krb5_kt_resolve w ctx (FileInterface_FileName base)) ;;
  when_ (failed (fst r)) (PrintError (fst r) "krb5_kt_resolve") ;;
  ret {| Keytab_base := base; keytab_ := snd r |}.

Definition Keytab_GetPrincipal (self : Keytab)
  : M W (shared_ptr Principal) :=
  let ctx := context_ (Keytab_base self) in
  s <- query Call_kt_start_seq_get
         (fun w => krb5_kt_start_seq_get w ctx (keytab_ self)) ;;
  if failed (fst s)
  then PrintError (fst s) "krb5_kt_start_seq_get" ;; ret None
  else
    let cursor := snd s in
    n <- query Call_kt_next_entry
           (fun w => krb5_kt_next_entry w ctx (keytab_ self) cursor) ;;
    let entry := fst (snd n) in
    let cursor := snd (snd n) in
    when_ (failed (fst n)) (PrintError (fst n) "krb5_kt_next_entry") ;;
    e <- query Call_kt_end_seq_get
           (fun w => krb5_kt_end_seq_get w ctx (keytab_ self) cursor) ;;
    when_ (failed e) (PrintError e "krb5_kt_end_seq_get") ;;
    p <- Principal_new ctx (principal entry) ;;
    f <- query Call_kt_free_entry
           (fun w => krb5_kt_free_entry w ctx entry) ;;
    when_ (failed f) (PrintError f "krb5_kt_free_entry") ;;
    ret (Some p).

Definition Keytab_GetCreds (self : Keytab) : M W (shared_ptr Creds) :=
  let ctx := context_ (Keytab_base self) in
  p <- Keytab_GetPrincipal self ;;
  match p with
  | Some pr =>
      r <- command Call_get_init_creds_keytab
             (fun w => krb5_get_init_creds_keytab w ctx
                         (Principal_Ptr pr) (keytab_ self)) ;;
      when_ (failed (fst r))
            (PrintError (fst r) "krb5_get_init_creds_keytab") ;;
      ret (Some (Creds_new ctx (snd r)))
  | None => ret None
  end.

(** *** Ccache *)

Definition Ccache_DefaultName (ctx : krb5_context) : M W string :=
  query Call_cc_default_name (fun w => krb5_cc_default_name w ctx).

Definition Ccache_ConfigName : M W string :=
  fullpath <- cfg_read "system/progpath" ;;
  fullpath <- cfg_read_or "kerberos/ccache" fullpath ;;
  progname <- cfg_read "system/progname" ;;
  ret (fullpath ++ ("/krb5cc_" ++ progname))%string.

Definition Ccache_new (ctx : krb5_context) (fullpath : string)
  : M W Ccache :=
  base <- FileInterface_Init (Ccache_DefaultName ctx) Ccache_ConfigName
            (FileInterface_new ctx fullpath) ;;
  command (Call_setenv "KRB5CCNAME" (FileInterface_FileName base))
    (fun w => (tt, setenv w "KRB5CCNAME" (FileInterface_FileName base))) ;;
  r <- query (Call_cc_resolve (FileInterface_FileName base))
         (fun w => krb5_cc_resolve w ctx (FileInterface_FileName base)) ;;
  when_ (failed (fst r)) (PrintError (fst r) "krb5_cc_resolve") ;;
  ret {| Ccache_base := base; ccache_ := snd r |}.

Definition Ccache_Create (self : Ccache)
    (principal : shared_ptr Principal) (creds : shared_ptr Creds)
  : M W bool :=
  let ctx := context_ (Ccache_base self) in
  match principal, creds with
  | Some p, Some c =>
      error_code <- command Call_cc_initialize
                      (fun w => krb5_cc_initialize w ctx (ccache_ self)
                                  (Principal_Ptr p)) ;;
      if failed error_code then ret false
      else
        error_code <- command Call_cc_store_cred
                        (fun w => krb5_cc_store_cred w ctx (ccache_ self)
                                    (Creds_Ptr c)) ;;
        when_ (failed error_code)
              (PrintError error_code "krb5_cc_store_cred") ;;
        ret (error_code =? 0)
  | _, _ => ret false
  end.

Definition Ccache_GetPrincipal (self : Ccache)
  : M W (shared_ptr Principal) :=
  let ctx := context_ (Ccache_base self) in
  r <- query Call_cc_get_principal
         (fun w => krb5_cc_get_principal w ctx (ccache_ self)) ;;
  if fst r =? 0
  then
    p <- Principal_new ctx (snd r) ;;
    emit (Native Call_free_principal) ;;
    ret (Some p)
  else PrintError (fst r) "krb5_cc_get_principal" ;; ret None.

Definition Ccache_GetServerPrincipal (self : Ccache) (realm : string)
  : M W (shared_ptr Principal) :=
  let ctx := context_ (Ccache_base self) in
  r <- query (Call_build_principal_ext realm)
         (fun w => krb5_build_principal_ext w ctx realm
                     [KRB5_TGS_NAME; realm]) ;;
  if fst r =? 0
  then
    p <- Principal_new ctx (snd r) ;;
    emit (Native Call_free_principal) ;;
    ret (Some p)
  else PrintError (fst r) "krb5_build_principal_ext" ;; ret None.

Definition zero_times : krb5_ticket_times :=
  {| authtime := 0; starttime := 0; endtime := 0; renew_till := 0 |}.

(** The second test looks at [principal_client] again, as the source
    does, and [principal_server] is dereferenced after it. *)
Definition Ccache_GetCreds (self : Ccache) : M W (shared_ptr Creds) :=
  let ctx := context_ (Ccache_base self) in
  principal_client <- Ccache_GetPrincipal self ;;
  if is_null principal_client then ret None
  else
    pc <- deref principal_client ;;
    client_realm <- Principal_Realm pc ;;
    principal_server <- Ccache_GetServerPrincipal self client_realm ;;
    if is_null principal_client then ret None
    else
      ps <- deref principal_server ;;
      let creds_find :=
        {| client := Principal_Ptr pc;
           server := Principal_Ptr ps;
           times := zero_times;
           ticket := "" |} in
      r <- query Call_cc_retrieve_cred
             (fun w => krb5_cc_retrieve_cred w ctx (ccache_ self)
                         creds_find) ;;
      if fst r =? 0
      then ret (Some (Creds_new ctx (snd r)))
      else PrintError (fst r) "krb5_cc_retrieve_cred" ;; ret None.

(** [krb5_get_renewed_creds] writes the renewed ticket through
    [creds->ptr()], that is into the [Creds] object read from the cache. *)
Definition Ccache_Update (self : Ccache) : M W bool :=
  let ctx := context_ (Ccache_base self) in
  principal <- Ccache_GetPrincipal self ;;
  creds <- Ccache_GetCreds self ;;
  match principal, creds with
  | Some p, Some c =>
      r <- command Call_get_renewed_creds
             (fun w => krb5_get_renewed_creds w ctx (Creds_Ptr c)
                         (Principal_Ptr p) (ccache_ self)) ;;
      if failed (fst r)
      then PrintError (fst r) "krb5_get_renewed_creds" ;; ret false
      else
        Ccache_Create self (Some p)
          (Some {| Creds_context_ := Creds_context_ c;
                   creds_ := snd r |})
  | _, _ => ret false
  end.

(** *** ServiceImpl

    Both entry points take [mutex_], a recursive mutex, for their whole
    body; a single thread of calls is modelled, so the lock is left out. *)

(** The read-back after a successful write: [ccache_creds->TimesInfo()]
    on what [GetCreds] returned, with no test in between. *)
Definition log_times (cc : Ccache) (text : string) : M W unit :=
  ccache_creds <- Ccache_GetCreds cc ;;
  c <- deref ccache_creds ;;
  info <- Creds_TimesInfo c ;;
  emit (LogInfo (text ++ info)%string).

Definition ServiceImpl_CreateCcache (self : ServiceImpl) : M W bool :=
  match svc_ccache_ self, svc_keytab_ self with
  | Some cc, Some kt =>
      emit (LogInfo "Создание Ccache") ;;
      principal <- Keytab_GetPrincipal kt ;;
      creds <- Keytab_GetCreds kt ;;
      res <- Ccache_Create cc principal creds ;;
      (if res : bool
       then log_times cc "Время действия билета " else ret tt) ;;
      ret res
  | _, _ => ret false
  end.

(** The switch names the states [STATE::RENEW] and [STATE::REINIT] and the
    members [_ccache->update()], [createCcache()]: the enumerators [Renew]
    and [Reinit] and the methods [Update], [CreateCcache] of the header. *)
Definition ServiceImpl_UpdateCcache (self : ServiceImpl) : M W bool :=
  match svc_ccache_ self with
  | None => ret false
  | Some cc =>
      exists_ <- FileInterface_FileExists (Ccache_base cc) ;;
      if negb exists_ then ServiceImpl_CreateCcache self
      else
        creds <- Ccache_GetCreds cc ;;
        match creds with
        | None => ret false
        | Some c =>
            st <- Creds_State c ;;
            match st with
            | State_Renew =>
                emit (LogInfo "Update ccache") ;;
                res <- Ccache_Update cc ;;
                if res : bool
                then log_times cc ("Creds time" ++ nl)%string ;; ret res
                else
                  emit (LogInfo "Update ccache error. REINIT") ;;
                  ServiceImpl_CreateCcache self
            | State_Reinit => ServiceImpl_CreateCcache self
            | State_None => ret true
            end
        end
  end.

End Program.

(** ** A simulated library

    One key table, one KDC and one credential cache, enough to run the
    program on concrete states. *)

Definition ENOMEM : krb5_error_code := 12.
Definition EINVAL : krb5_error_code := 22.
Definition KRB5_KT_END : krb5_error_code := -1765328202.
Definition KRB5_KT_NOTFOUND : krb5_error_code := -1765328203.
Definition KRB5_CC_NOTFOUND : krb5_error_code := -1765328243.
Definition KRB5_CC_IO : krb5_error_code := -1765328191.
Definition KRB5_FCC_NOFILE : krb5_error_code := -1765328189.
Definition KRB5_KDC_UNREACH : krb5_error_code := -1765328228.
Definition KRB5KDC_ERR_BADOPTION : krb5_error_code := -1765328371.

Record SimWorld := {
  sim_now : krb5_timestamp;
  (** configuration variables *)
  sim_cfg : list (string * string);
  sim_env : list (string * string);
  (** the key table can be opened, and its entries in file order *)
  sim_keytab_readable : bool;
  sim_keytab : list krb5_keytab_entry;
  (** [None]: no KDC answers; [Some t]: the tickets it issues are valid
      for the window [t] *)
  sim_kdc : option krb5_ticket_times;
  (** the KDC's policy allows renewing a ticket *)
  sim_kdc_renews : bool;
  (** the cache file: its path, and its principal and tickets once it is
      initialized *)
  sim_cache_path : string;
  sim_cache : option (krb5_principal_data * list krb5_creds);
  (** injected faults, 0 for none: reading the cache, allocating a name *)
  sim_cc_read_fault : krb5_error_code;
  sim_alloc_fault : krb5_error_code
}.

(** What an out-parameter holds when the call failed before writing it:
    the caller's uninitialised memory, here zero bytes. *)
Definition junk_entry : krb5_keytab_entry := {| principal := None; vno := 0 |}.
Definition junk_creds : krb5_creds :=
  {| client := None; server := None;
     times := {| authtime := 0; starttime := 0; endtime := 0;
                 renew_till := 0 |};
     ticket := "" |}.

Fixpoint strings_eqb (l1 l2 : list string) : bool :=
  match l1, l2 with
  | [], [] => true
  | a :: l1', b :: l2' => (a =? b)%string && strings_eqb l1' l2'
  | _, _ => false
  end.

Definition principal_eqb (p q : krb5_principal) : bool :=
  match p, q with
  | Some a, Some b =>
      (realm a =? realm b)%string && strings_eqb (components a) (components b)
  | None, None => true
  | _, _ => false
  end.

Definition creds_match (mcreds c : krb5_creds) : bool :=
  principal_eqb (client mcreds) (client c)
  && principal_eqb (server mcreds) (server c).

Fixpoint assoc (k : string) (l : list (string * string)) : option string :=
  match l with
  | [] => None
  | (k', v) :: l' => if (k =? k')%string then Some v else assoc k l'
  end.

Definition tgs_principal (r : string) : krb5_principal_data :=
  {| realm := r; components := [KRB5_TGS_NAME; r] |}.

Definition sim_set_cache (w : SimWorld)
    (c : option (krb5_principal_data * list krb5_creds)) : SimWorld :=
  {| sim_now := sim_now w; sim_cfg := sim_cfg w; sim_env := sim_env w;
     sim_keytab_readable := sim_keytab_readable w;
     sim_keytab := sim_keytab w; sim_kdc := sim_kdc w;
     sim_kdc_renews := sim_kdc_renews w;
     sim_cache_path := sim_cache_path w; sim_cache := c;
     sim_cc_read_fault := sim_cc_read_fault w;
     sim_alloc_fault := sim_alloc_fault w |}.

Definition sim_set_env (w : SimWorld) (name val : string) : SimWorld :=
  {| sim_now := sim_now w; sim_cfg := sim_cfg w;
     sim_env := (name, val) :: sim_env w;
     sim_keytab_readable := sim_keytab_readable w;
     sim_keytab := sim_keytab w; sim_kdc := sim_kdc w;
     sim_kdc_renews := sim_kdc_renews w;
     sim_cache_path := sim_cache_path w; sim_cache := sim_cache w;
     sim_cc_read_fault := sim_cc_read_fault w;
     sim_alloc_fault := sim_alloc_fault w |}.

Definition sim_retrieve (w : SimWorld) (mcreds : krb5_creds)
  : krb5_error_code * krb5_creds :=
  if negb (sim_cc_read_fault w =? 0) then (sim_cc_read_fault w, junk_creds)
  else
    match sim_cache w with
    | Some (_, l) =>
        match find (creds_match mcreds) l with
        | Some c => (0, c)
        | None => (KRB5_CC_NOTFOUND, junk_creds)
        end
    | None => (KRB5_FCC_NOFILE, junk_creds)
    end.

#[global] Instance SimLib : Krb5Lib SimWorld := {
  krb5_timeofday w _ := (0, sim_now w);
  krb5_timestamp_to_string _ t :=
    DecimalString.NilZero.string_of_int (Z.to_int t);
  krb5_copy_principal _ _ p :=
    match p with Some d => (0, Some d) | None => (EINVAL, None) end;
  krb5_kt_resolve _ _ _ := (0, Some 1%N);
  krb5_kt_default_name _ _ := (0, "FILE:/etc/krb5.keytab");
  krb5_kt_start_seq_get w _ _ :=
    if sim_keytab_readable w then (0, Some 0%N) else (KRB5_KT_NOTFOUND, None);
  krb5_kt_next_entry w _ _ cursor :=
    match cursor with
    | Some i =>
        match nth_error (sim_keytab w) (N.to_nat i) with
        | Some e => (0, (e, Some (i + 1)%N))
        | None => (KRB5_KT_END, (junk_entry, cursor))
        end
    | None => (EINVAL, (junk_entry, cursor))
    end;
  krb5_kt_end_seq_get _ _ _ _ := 0;
  krb5_kt_free_entry _ _ _ := 0;
  krb5_get_init_creds_keytab w _ p _ :=
    match sim_kdc w, p with
    | Some t, Some d =>
        ((0, {| client := Some d; server := Some (tgs_principal (realm d));
                times := t; ticket := "TGT" |}), w)
    | _, _ => ((KRB5_KDC_UNREACH, junk_creds), w)
    end;
  krb5_cc_resolve _ _ _ := (0, Some 2%N);
  krb5_cc_default_name w _ := sim_cache_path w;
  krb5_cc_initialize w _ _ p :=
    match p with
    | Some d => (0, sim_set_cache w (Some (d, [])))
    | None => (EINVAL, w)
    end;
  krb5_cc_store_cred w _ _ c :=
    match sim_cache w with
    | Some (d, l) => (0, sim_set_cache w (Some (d, c :: l)))
    | None => (KRB5_FCC_NOFILE, w)
    end;
  krb5_cc_retrieve_cred w _ _ mcreds := sim_retrieve w mcreds;
  krb5_cc_get_principal w _ _ :=
    match sim_cache w with
    | Some (d, _) => (0, Some d)
    | None => (KRB5_FCC_NOFILE, None)
    end;
  krb5_get_renewed_creds w _ creds _ _ :=
    match sim_kdc w with
    | Some t =>
        if sim_kdc_renews w && (sim_now w <? renew_till (times creds))
        then ((0, {| client := client creds; server := server creds;
                     times := t; ticket := "TGT'" |}), w)
        else ((KRB5KDC_ERR_BADOPTION, creds), w)
    | None => ((KRB5_KDC_UNREACH, creds), w)
    end;
  krb5_build_principal_ext w _ r comps :=
    if sim_alloc_fault w =? 0
    then (0, Some {| realm := r; components := comps |})
    else (sim_alloc_fault w, None);
  setenv w name val := sim_set_env w name val;
  fs_exists w path :=
    Some ((path =? strip_prefix "FILE:" (sim_cache_path w))%string
          && match sim_cache w with Some _ => true | None => false end);
  cfg_variable w key :=
    match assoc key (sim_cfg w) with Some v => v | None => "" end;
  cfg_variable_or w key default :=
    match assoc key (sim_cfg w) with Some v => v | None => default end
}.

(** ** Concrete states for the simulated library *)

Definition svc_name : krb5_principal_data :=
  {| realm := "EXAMPLE.ORG"; components := ["svc"; "node1"] |}.

Definition window (s e r : krb5_timestamp) : krb5_ticket_times :=
  {| authtime := s; starttime := s; endtime := e; renew_till := r |}.

Definition tgt (t : krb5_ticket_times) : krb5_creds :=
  {| client := Some svc_name;
     server := Some (tgs_principal "EXAMPLE.ORG");
     times := t;
     ticket := "TGT" |}.

(** A managed service with a readable key table, no injected fault and the
    cache file at [/opt/app/krb5cc_app]. *)
Definition sim_make (now : krb5_timestamp) (keytab : list krb5_keytab_entry)
    (kdc : option krb5_ticket_times) (renews : bool)
    (cache : option (krb5_principal_data * list krb5_creds)) : SimWorld :=
  {| sim_now := now;
     sim_cfg := [("system/type", "service"); ("system/progpath", "/opt/app");
                 ("system/progname", "app")];
     sim_env := [];
     sim_keytab_readable := true;
     sim_keytab := keytab;
     sim_kdc := kdc;
     sim_kdc_renews := renews;
     sim_cache_path := "/opt/app/krb5cc_app";
     sim_cache := cache;
     sim_cc_read_fault := 0;
     sim_alloc_fault := 0 |}.

Definition sim_inject (w : SimWorld) (read_fault alloc_fault : krb5_error_code)
  : SimWorld :=
  {| sim_now := sim_now w; sim_cfg := sim_cfg w; sim_env := sim_env w;
     sim_keytab_readable := sim_keytab_readable w;
     sim_keytab := sim_keytab w; sim_kdc := sim_kdc w;
     sim_kdc_renews := sim_kdc_renews w;
     sim_cache_path := sim_cache_path w; sim_cache := sim_cache w;
     sim_cc_read_fault := read_fault;
     sim_alloc_fault := alloc_fault |}.

(** The usual state: a one-entry key table and a KDC that issues tickets
    valid until 1600 and renewable until 5000, and renews them. *)
Definition sim_world (now : krb5_timestamp)
    (cache : option (krb5_principal_data * list krb5_creds)) : SimWorld :=
  sim_make now [ {| principal := Some svc_name; vno := 1 |} ]
           (Some (window 1000 1600 5000)) true cache.

(** The KDC answers but refuses to renew. *)
Definition sim_world_no_renewal (now : krb5_timestamp)
    (cache : option (krb5_principal_data * list krb5_creds)) : SimWorld :=
  sim_make now [ {| principal := Some svc_name; vno := 1 |} ]
           (Some (window now (now + 600) (now + 4000))) false cache.

(** The key table holds no entry. *)
Definition sim_world_empty_keytab : SimWorld :=
  sim_make 1000 [] (Some (window 1000 1600 5000)) true None.

(** No KDC answers. *)
Definition sim_world_no_kdc : SimWorld :=
  sim_make 1000 [ {| principal := Some svc_name; vno := 1 |} ] None true None.

Definition sim_keytab_obj : Keytab :=
  {| Keytab_base := {| context_ := Some 7%N;
                       fullpath_ := "/opt/app/keytab";
                       program_type_ := "service" |};
     keytab_ := Some 1%N |}.

Definition sim_ccache_obj : Ccache :=
  {| Ccache_base := {| context_ := Some 7%N;
                       fullpath_ := "/opt/app/krb5cc_app";
                       program_type_ := "service" |};
     ccache_ := Some 2%N |}.

Definition sim_service : ServiceImpl :=
  {| svc_keytab_ := Some sim_keytab_obj; svc_ccache_ := Some sim_ccache_obj |}.

(** A ticket that cannot be renewed has [renew_till = 0]; this one is valid
    until 1600. *)
Definition sim_creds_nonrenewable : Creds :=
  Creds_new (Some 7%N) (tgt (window 900 1600 0)).

(** A cached ticket that is still valid at time 1000. *)
Definition sim_creds_valid : Creds :=
  Creds_new (Some 7%N) (tgt (window 900 1600 5000)).

Definition sim_world_valid : SimWorld :=
  sim_world 1000 (Some (svc_name, [tgt (window 900 1600 5000)])).

(** A cached ticket that ended at 1600 and can be renewed until 5000, at
    time 2000, with a KDC that refuses to renew. *)
Definition sim_creds_expired : Creds :=
  Creds_new (Some 7%N) (tgt (window 1000 1600 5000)).

Definition sim_world_renew_refused : SimWorld :=
  sim_world_no_renewal 2000 (Some (svc_name, [tgt (window 1000 1600 5000)])).

(** The library cannot allocate a principal name. *)
Definition sim_world_alloc_fault : SimWorld :=
  sim_inject sim_world_valid 0 ENOMEM.

(** No cache file yet, and reading the cache fails with an I/O error. *)
Definition sim_world_read_fault : SimWorld :=
  sim_inject (sim_world 1000 None) KRB5_CC_IO 0.

(** What the key table and the KDC of [sim_world] give. *)
Definition sim_principal_obj : Principal :=
  {| Principal_context_ := Some 7%N; principal_ := Some svc_name |}.

Definition sim_creds_fresh : Creds :=
  Creds_new (Some 7%N) (tgt (window 1000 1600 5000)).

(** ** Construction and teardown

    The constructor of [ServiceImpl] and the destructors of the two stores
    use four more library calls. *)
Class Krb5Lifecycle (W : Type) := {
  krb5_init_context : W -> krb5_error_code * krb5_context;
  krb5_kt_close : W -> krb5_context -> krb5_keytab -> krb5_error_code * W;
  krb5_cc_close : W -> krb5_context -> krb5_ccache -> krb5_error_code * W;
  krb5_cc_destroy : W -> krb5_context -> krb5_ccache -> krb5_error_code * W
}.

(** What a destructor does, in order. *)
Inductive TeardownEvent :=
| Td_kt_close
| Td_cc_close
| Td_cc_destroy
| Td_error (code : krb5_error_code) (message : string).

Section Lifecycle.
Context {W : Type} {lib : Krb5Lib W} {life : Krb5Lifecycle W}.

(** [Keytab::~Keytab]: the key table is closed whatever the handle is. *)
Definition Keytab_destructor (self : Keytab) (w : W)
  : list TeardownEvent * W :=
  let r := krb5_kt_close w (context_ (Keytab_base self)) (keytab_ self) in
  (Td_kt_close
   :: (if failed (fst r) then [Td_error (fst r) "krb5_kt_close"] else []),
   snd r).

(** [Ccache::~Ccache]: nothing without a context or a handle; otherwise the
    cache is destroyed unless the program type is ["manual"], in which case
    it is closed. *)
Definition Ccache_destructor (self : Ccache) (w : W)
  : list TeardownEvent * W :=
  let ctx := context_ (Ccache_base self) in
  if negb (is_null ctx) && negb (is_null (ccache_ self))
  then
    let managed :=
      negb (FileInterface_ProgramType (Ccache_base self) =? "manual")%string in
    let r := if managed
             then krb5_cc_destroy w ctx (ccache_ self)
             else krb5_cc_close w ctx (ccache_ self) in
    ((if managed then Td_cc_destroy else Td_cc_close)
     :: (if failed (fst r)
         then [Td_error (fst r) "Ошибка закрытия или удаления Ccache"]
         else []),
     snd r)
  else ([], w).

(** [ServiceImpl::ServiceImpl].  The source passes two names, [keytab] and
    [ccache], that it does not declare: they are the explicit paths of the
    two stores and are parameters here.  [krb5_init_context] itself is not
    an event of the trace; the trace is that of the two store constructors,
    or the error line. *)
Definition ServiceImpl_new (keytab ccache : string) : M W ServiceImpl :=
  fun w =>
    let r := krb5_init_context w in
    if fst r =? 0
    then
      (kt <- Keytab_new (snd r) keytab ;;
       cc <- Ccache_new (snd r) ccache ;;
       ret {| svc_keytab_ := Some kt; svc_ccache_ := Some cc |}) w
    else
      Run (Returns {| svc_keytab_ := None; svc_ccache_ := None |}) w
          [LogError
             "Ошибка при инициализации контекста Kerberos (krb5_init_context)"].

End Lifecycle.



(** The key table cannot be opened. *)
Definition sim_world_unreadable_keytab : SimWorld :=
  {| sim_now := 1000;
     sim_cfg := [("system/type", "service"); ("system/progpath", "/opt/app");
                 ("system/progname", "app")];
     sim_env := [];
     sim_keytab_readable := false;
     sim_keytab := [];
     sim_kdc := Some (window 1000 1600 5000);
     sim_kdc_renews := true;
     sim_cache_path := "/opt/app/krb5cc_app";
     sim_cache := None;
     sim_cc_read_fault := 0;
     sim_alloc_fault := 0 |}.

(** The cache file is there, its ticket ended at 1600 and is renewable
    until 5000; the time is 2000 and the KDC renews. *)
Definition sim_world_renewable : SimWorld :=
  sim_make 2000 [ {| principal := Some svc_name; vno := 1 |} ]
           (Some (window 2000 2600 6000)) true
           (Some (svc_name, [tgt (window 1000 1600 5000)])).

(** The ticket the KDC of [sim_world_renewable] gives for a renewal. *)
Definition sim_creds_renewed : Creds :=
  Creds_new (Some 7%N)
    {| client := Some svc_name;
       server := Some (tgs_principal "EXAMPLE.ORG");
       times := window 2000 2600 6000;
       ticket := "TGT'" |}.

(** The cached ticket can no longer be renewed at time 6000. *)
Definition sim_world_past_renewal : SimWorld :=
  sim_world 6000 (Some (svc_name, [tgt (window 1000 1600 5000)])).

(** The cache file holds a principal and no ticket. *)
Definition sim_world_empty_cache : SimWorld :=
  sim_world 1000 (Some (svc_name, [])).

(** A configuration that says the program is run by hand. *)
Definition sim_world_manual : SimWorld :=
  {| sim_now := 1000;
     sim_cfg := [("system/type", "manual")];
     sim_env := [];
     sim_keytab_readable := true;
     sim_keytab := [ {| principal := Some svc_name; vno := 1 |} ];
     sim_kdc := Some (window 1000 1600 5000);
     sim_kdc_renews := true;
     sim_cache_path := "FILE:/tmp/krb5cc_1000";
     sim_cache := Some (svc_name, [tgt (window 900 1600 5000)]);
     sim_cc_read_fault := 0;
     sim_alloc_fault := 0 |}.

(** ** Classes of events *)

Definition is_renewal (e : Event) : bool :=
  match e with
  | Native Call_get_renewed_creds => true
  | _ => false
  end.

(** Reading the key table or exchanging its key for a ticket. *)
Definition touches_keytab (e : Event) : bool :=
  match e with
  | Native Call_kt_start_seq_get
  | Native Call_kt_next_entry
  | Native Call_kt_end_seq_get
  | Native Call_kt_free_entry
  | Native Call_get_init_creds_keytab => true
  | _ => false
  end.

Definition writes_cache (e : Event) : bool :=
  match e with
  | Native Call_cc_initialize | Native Call_cc_store_cred => true
  | _ => false
  end.

Definition opens_cursor (e : Event) : bool :=
  match e with Native Call_kt_start_seq_get => true | _ => false end.

Definition reads_entry (e : Event) : bool :=
  match e with Native Call_kt_next_entry => true | _ => false end.

Definition closes_cursor (e : Event) : bool :=
  match e with Native Call_kt_end_seq_get => true | _ => false end.

Definition count (P : Event -> bool) (l : list Event) : nat :=
  length (filter P l).

(** No event of the trace is in the class [P]. *)
Definition never (P : Event -> bool) (l : list Event) : bool :=
  forallb (fun e => negb (P e)) l.

(** A computation that makes no event of the class [P], on any world. *)
Definition avoids {W A} (P : Event -> bool) (m : M W A) : Prop :=
  forall w, never P (events (m w)) = true.

(** The lifecycle states in the order the clock moves them. *)
Definition State_rank (s : State) : nat :=
  match s with
  | State_None => 0
  | State_Renew => 1
  | State_Reinit => 2
  end.

(** ** Properties of runs *)

(** The path rule of the specification: an explicit path wins; otherwise
    the mode read from the configuration chooses between the library's
    default name and the name derived from the configuration. *)
Definition resolved_path (explicit mode default_name config_name : string)
  : string :=
  if (explicit =? "")%string
  then (if (mode =? "manual")%string then default_name else config_name)
  else explicit.

(** The library calls that open a store. *)
Definition opens_store (e : Event) : bool :=
  match e with
  | Native (Call_kt_resolve _) | Native (Call_cc_resolve _) => true
  | _ => false
  end.

(** Reading the process mode from the configuration. *)
Definition reads_mode (e : Event) : bool :=
  match e with
  | CfgRead key => (key =? "system/type")%string
  | _ => false
  end.

Definition quiet (l : list Event) : bool :=
  forallb (fun e => negb (mutating e)) l.

(** A computation is read-only when it leaves the world as it found it and
    makes no mutating call. *)
Definition readonly {W A} (m : M W A) : Prop :=
  forall w, after (m w) = w /\ quiet (events (m w)) = true.

Section Laws.
Context {W : Type}.

Lemma bind_returns {A B} (m : M W A) (k : A -> M W B) w a :
  value (m w) = Returns a ->
  bind m k w =
  Run (value (k a (after (m w)))) (after (k a (after (m w))))
      (events (m w) ++ events (k a (after (m w)))).
Proof.
  intros H. unfold bind. destruct (m w) as [v w1 e1]. cbn in *. subst v.
  destruct (k a w1). reflexivity.
Qed.

Lemma bind_fault {A B} (m : M W A) (k : A -> M W B) w :
  value (m w) = NullDeref ->
  bind m k w = Run NullDeref (after (m w)) (events (m w)).
Proof.
  intros H. unfold bind. destruct (m w) as [v w1 e1]. cbn in *. subst v.
  reflexivity.
Qed.

Lemma bind_emit {B} e (k : unit -> M W B) w :
  bind (emit e) k w =
  Run (value (k tt w)) (after (k tt w)) ([e] ++ events (k tt w)).
Proof. unfold bind, emit. destruct (k tt w). reflexivity. Qed.

Lemma bind_events_prefix {A B} (m : M W A) (k : A -> M W B) w :
  exists rest, events (bind m k w) = events (m w) ++ rest.
Proof.
  unfold bind. destruct (m w) as [[a|] w1 e1].
  - destruct (k a w1) as [v w2 e2]. exists e2. reflexivity.
  - exists []. cbn [events]. rewrite app_nil_r. reflexivity.
Qed.

Lemma quiet_app l1 l2 : quiet (l1 ++ l2) = quiet l1 && quiet l2.
Proof. apply forallb_app. Qed.

Lemma readonly_ret {A} (a : A) : readonly (W := W) (ret a).
Proof. intros w. split; reflexivity. Qed.

Lemma readonly_fault {A} : readonly (W := W) (A := A) fault.
Proof. intros w. split; reflexivity. Qed.

Lemma readonly_emit e : mutating e = false -> readonly (W := W) (emit e).
Proof.
  intros H w. split; [reflexivity|].
  unfold emit, quiet. cbn [events forallb]. rewrite H. reflexivity.
Qed.

Lemma readonly_query {A} c (f : W -> A) :
  mutating (Native c) = false -> readonly (query c f).
Proof.
  intros H w. split; [reflexivity|].
  unfold query, quiet. cbn [events forallb]. rewrite H. reflexivity.
Qed.

Lemma readonly_bind {A B} (m : M W A) (k : A -> M W B) :
  readonly m -> (forall a, readonly (k a)) -> readonly (bind m k).
Proof.
  intros Hm Hk w. destruct (Hm w) as [Hw Hq]. unfold bind.
  destruct (m w) as [[a|] w1 e1]; cbn [value after events] in *.
  - destruct (Hk a w1) as [Hw' Hq']. destruct (k a w1) as [v w2 e2].
    cbn [value after events] in *.
    rewrite quiet_app, Hq, Hq'. split; [congruence | reflexivity].
  - split; assumption.
Qed.

Lemma readonly_when b (m : M W unit) : readonly m -> readonly (when_ b m).
Proof. intros H. destruct b; cbn; [assumption | apply readonly_ret]. Qed.

End Laws.

Create HintDb ro.
#[export] Hint Resolve readonly_ret readonly_fault readonly_when : ro.

Ltac ro_step :=
  match goal with
  | |- readonly (bind _ _) => apply readonly_bind; [| intros ?]
  | |- readonly (query _ _) => apply readonly_query; reflexivity
  | |- readonly (emit _) => apply readonly_emit; reflexivity
  | |- readonly (PrintError _ _) => apply readonly_emit; reflexivity
  | |- readonly (when_ _ _) => apply readonly_when
  | |- readonly (ret _) => apply readonly_ret
  | |- readonly fault => apply readonly_fault
  | |- readonly (if ?b then _ else _) => destruct b
  | |- readonly (match ?x with _ => _ end) => destruct x
  end.

Ltac ro := repeat ro_step; auto with ro.

Section Properties.
Context {W : Type} {lib : Krb5Lib W}.

(** *** Read-only parts of the program *)

Lemma Principal_new_readonly ctx p : readonly (Principal_new ctx p).
Proof. unfold Principal_new. ro. Qed.

Lemma Principal_Realm_readonly p :
  readonly (W := W) (Principal_Realm p).
Proof. unfold Principal_Realm. ro. Qed.

Lemma deref_readonly {T} (p : shared_ptr T) :
  readonly (W := W) (deref p).
Proof. unfold deref. ro. Qed.

Lemma Creds_State_readonly c : readonly (Creds_State c).
Proof. unfold Creds_State. ro. Qed.

Lemma FileExists_readonly f : readonly (FileInterface_FileExists f).
Proof. unfold FileInterface_FileExists. ro. Qed.

Lemma Ccache_GetPrincipal_readonly cc : readonly (Ccache_GetPrincipal cc).
Proof.
  unfold Ccache_GetPrincipal. ro. apply Principal_new_readonly.
Qed.

Lemma Ccache_GetServerPrincipal_readonly cc r :
  readonly (Ccache_GetServerPrincipal cc r).
Proof.
  unfold Ccache_GetServerPrincipal. ro. apply Principal_new_readonly.
Qed.

Lemma Ccache_GetCreds_readonly cc : readonly (Ccache_GetCreds cc).
Proof.
  unfold Ccache_GetCreds.
  apply readonly_bind; [apply Ccache_GetPrincipal_readonly | intros pc].
  destruct (is_null pc); [apply readonly_ret|].
  apply readonly_bind; [apply deref_readonly | intros p].
  apply readonly_bind; [apply Principal_Realm_readonly | intros r].
  apply readonly_bind;
    [apply Ccache_GetServerPrincipal_readonly | intros ps].
  apply readonly_bind; [apply deref_readonly | intros s].
  ro.
Qed.

Lemma readonly_after {A} (m : M W A) w : readonly m -> after (m w) = w.
Proof. intros H. apply H. Qed.

Lemma readonly_quiet {A} (m : M W A) w :
  readonly m -> quiet (events (m w)) = true.
Proof. intros H. apply H. Qed.

(** *** Creds::State *)

(** C2 (amended): with [now] the time the library reports, [State] returns
    [None] (Valid) exactly when [now < end_time], [Renew] exactly when
    [end_time <= now < renew_until_time], and [Reinit] exactly when
    [end_time <= now] and [renew_until_time <= now].  So a ticket that is
    past [renew_until_time] but not past [end_time] is Valid. *)
Theorem Creds_State_spec (c : Creds) (w : W) :
  let now := snd (krb5_timeofday w (Creds_context_ c)) in
  exists st,
    value (Creds_State c w) = Returns st /\
    (st = State_None <-> now < Creds_EndTime c) /\
    (st = State_Renew <->
       Creds_EndTime c <= now /\ now < Creds_RenewTime c) /\
    (st = State_Reinit <->
       Creds_EndTime c <= now /\ Creds_RenewTime c <= now).
Proof.
  intros now. unfold Creds_State, bind, query, ret. cbn.
  fold now.
  destruct (Z.geb_spec now (Creds_EndTime c)) as [He|He];
    [destruct (Z.geb_spec now (Creds_RenewTime c)) as [Hr|Hr]|];
    eexists; (split; [reflexivity|]);
    repeat split; intros; try discriminate; try lia.
Qed.

(** *** Ccache::Create *)

(** C4: [Create] returns false, makes no library call and leaves the
    world alone when either argument is null; it returns true exactly
    when both arguments are present, [krb5_cc_initialize] returns 0 and
    [krb5_cc_store_cred], called after it, returns 0.  It always
    returns. *)
Theorem Ccache_Create_spec (self : Ccache)
    (principal : shared_ptr Principal) (creds : shared_ptr Creds) (w : W) :
  let ctx := context_ (Ccache_base self) in
  let r := Ccache_Create self principal creds w in
  (exists b, value r = Returns b) /\
  (principal = None \/ creds = None ->
     r = Run (Returns false) w []) /\
  (value r = Returns true <->
     exists p c,
       principal = Some p /\ creds = Some c /\
       fst (krb5_cc_initialize w ctx (ccache_ self) (Principal_Ptr p)) = 0
       /\ fst (krb5_cc_store_cred
                 (snd (krb5_cc_initialize w ctx (ccache_ self)
                         (Principal_Ptr p)))
                 ctx (ccache_ self) (Creds_Ptr c)) = 0).
Proof.
  intros ctx r. subst r. unfold Ccache_Create. fold ctx.
  destruct principal as [p|], creds as [c|]; cbn.
  2-4: (split; [eexists; reflexivity|]; split; [reflexivity|];
        split; [discriminate|];
        intros (p' & c' & Hp & Hc & _); discriminate).
  unfold bind, command, failed, when_, PrintError, emit, ret. cbn.
  destruct (krb5_cc_initialize w ctx (ccache_ self) (Principal_Ptr p))
    as [code1 w1] eqn:E1. cbn.
  destruct (Z.eqb_spec code1 0) as [H1|H1]; cbn.
  - destruct (krb5_cc_store_cred w1 ctx (ccache_ self) (Creds_Ptr c))
      as [code2 w2] eqn:E2. cbn.
    destruct (Z.eqb_spec code2 0) as [H2|H2]; cbn.
    + split; [eexists; reflexivity|].
      split; [intros [H|H]; discriminate|].
      split; [intros _|reflexivity].
      exists p, c. rewrite E1. cbn. rewrite E2. cbn. auto.
    + split; [eexists; reflexivity|].
      split; [intros [H|H]; discriminate|].
      split; [discriminate|].
      intros (p' & c' & Hp & Hc & Hi & Hs).
      injection Hp as <-. injection Hc as <-.
      rewrite E1 in Hs. cbn in Hs. rewrite E2 in Hs. cbn in Hs.
      contradiction.
  - split; [eexists; reflexivity|].
    split; [intros [H|H]; discriminate|].
    split; [discriminate|].
    intros (p' & c' & Hp & Hc & Hi & Hs).
    injection Hp as <-. rewrite E1 in Hi. cbn in Hi. contradiction.
Qed.

(** *** ServiceImpl::UpdateCcache *)

(** C3: when the cache object is present and its file does not exist,
    [UpdateCcache] is the existence test followed by [CreateCcache] and
    nothing else: same returned value, same final world, and the trace is
    the existence test's followed by [CreateCcache]'s. *)
Theorem UpdateCcache_without_file (self : ServiceImpl) (cc : Ccache)
    (w : W) :
  svc_ccache_ self = Some cc ->
  value (FileInterface_FileExists (Ccache_base cc) w) = Returns false ->
  ServiceImpl_UpdateCcache self w =
  Run (value (ServiceImpl_CreateCcache self w))
      (after (ServiceImpl_CreateCcache self w))
      (events (FileInterface_FileExists (Ccache_base cc) w)
       ++ events (ServiceImpl_CreateCcache self w)).
Proof.
  intros Hcc Hex. unfold ServiceImpl_UpdateCcache. rewrite Hcc.
  rewrite (bind_returns _ _ _ _ Hex).
  rewrite (readonly_after _ w (FileExists_readonly _)).
  reflexivity.
Qed.

(** In the [Renew] state the refresh is attempted: the trace of
    [UpdateCcache] runs through the whole of [Ccache::Update]. *)
Lemma UpdateCcache_renew_attempts_update (self : ServiceImpl) (cc : Ccache)
    (c : Creds) (w : W) :
  svc_ccache_ self = Some cc ->
  value (FileInterface_FileExists (Ccache_base cc) w) = Returns true ->
  value (Ccache_GetCreds cc w) = Returns (Some c) ->
  value (Creds_State c w) = Returns State_Renew ->
  exists rest,
    events (ServiceImpl_UpdateCcache self w) =
    events (FileInterface_FileExists (Ccache_base cc) w)
    ++ events (Ccache_GetCreds cc w)
    ++ events (Creds_State c w)
    ++ [LogInfo "Update ccache"]
    ++ events (Ccache_Update cc w)
    ++ rest.
Proof.
  intros Hcc Hex Hcr Hst.
  remember (events (ServiceImpl_UpdateCcache self w)) as ev eqn:Eev.
  unfold ServiceImpl_UpdateCcache in Eev. rewrite Hcc in Eev.
  rewrite (bind_returns _ _ _ _ Hex) in Eev.
  rewrite (readonly_after _ w (FileExists_readonly _)) in Eev.
  cbn [negb events] in Eev.
  rewrite (bind_returns _ _ _ _ Hcr) in Eev.
  rewrite (readonly_after _ w (Ccache_GetCreds_readonly _)) in Eev.
  cbn [events] in Eev.
  rewrite (bind_returns _ _ _ _ Hst) in Eev.
  rewrite (readonly_after _ w (Creds_State_readonly c)) in Eev.
  cbn [events] in Eev.
  rewrite bind_emit in Eev. cbn [events] in Eev.
  match type of Eev with
  | context [events (bind (Ccache_Update cc) ?k w)] =>
      destruct (bind_events_prefix (Ccache_Update cc) k w) as [rest Hrest];
      rewrite Hrest in Eev
  end.
  subst ev. exists rest. reflexivity.
Qed.

(** After a failed refresh, [UpdateCcache] is [CreateCcache] run in the
    world the refresh left. *)
Lemma UpdateCcache_renew_failure_runs_create (self : ServiceImpl)
    (cc : Ccache) (c : Creds) (w : W) :
  svc_ccache_ self = Some cc ->
  value (FileInterface_FileExists (Ccache_base cc) w) = Returns true ->
  value (Ccache_GetCreds cc w) = Returns (Some c) ->
  value (Creds_State c w) = Returns State_Renew ->
  value (Ccache_Update cc w) = Returns false ->
  let w' := after (Ccache_Update cc w) in
  ServiceImpl_UpdateCcache self w =
  Run (value (ServiceImpl_CreateCcache self w'))
      (after (ServiceImpl_CreateCcache self w'))
      (events (FileInterface_FileExists (Ccache_base cc) w)
       ++ events (Ccache_GetCreds cc w)
       ++ events (Creds_State c w)
       ++ [LogInfo "Update ccache"]
       ++ events (Ccache_Update cc w)
       ++ [LogInfo "Update ccache error. REINIT"]
       ++ events (ServiceImpl_CreateCcache self w')).
Proof.
  intros Hcc Hex Hcr Hst Hup w'. unfold ServiceImpl_UpdateCcache.
  rewrite Hcc.
  rewrite (bind_returns _ _ _ _ Hex).
  rewrite (readonly_after _ w (FileExists_readonly _)).
  cbn [negb value after events].
  rewrite (bind_returns _ _ _ _ Hcr).
  rewrite (readonly_after _ w (Ccache_GetCreds_readonly _)).
  cbn [value after events].
  rewrite (bind_returns _ _ _ _ Hst).
  rewrite (readonly_after _ w (Creds_State_readonly c)).
  cbn [value after events].
  rewrite bind_emit. cbn [value after events].
  rewrite (bind_returns _ _ _ _ Hup). fold w'.
  cbn [value after events].
  rewrite bind_emit. cbn [value after events].
  reflexivity.
Qed.

(** C1: with the cache file present and the cached ticket in state
    [Renew], [UpdateCcache] runs [Ccache::Update] (its whole trace is part
    of the trace of [UpdateCcache]); and when [Update] returns false,
    [UpdateCcache] logs the failure and runs [CreateCcache] in the world
    [Update] left: its value, final world and remaining trace are those of
    that [CreateCcache] call, so the renewal failure is not what is
    returned. *)
Theorem UpdateCcache_renew_fallback (self : ServiceImpl) (cc : Ccache)
    (c : Creds) (w : W) :
  svc_ccache_ self = Some cc ->
  value (FileInterface_FileExists (Ccache_base cc) w) = Returns true ->
  value (Ccache_GetCreds cc w) = Returns (Some c) ->
  value (Creds_State c w) = Returns State_Renew ->
  let w' := after (Ccache_Update cc w) in
  let before :=
    events (FileInterface_FileExists (Ccache_base cc) w)
    ++ events (Ccache_GetCreds cc w)
    ++ events (Creds_State c w)
    ++ [LogInfo "Update ccache"]
    ++ events (Ccache_Update cc w) in
  (exists rest, events (ServiceImpl_UpdateCcache self w) = before ++ rest) /\
  (value (Ccache_Update cc w) = Returns false ->
   ServiceImpl_UpdateCcache self w =
   Run (value (ServiceImpl_CreateCcache self w'))
       (after (ServiceImpl_CreateCcache self w'))
       (before ++ [LogInfo "Update ccache error. REINIT"]
        ++ events (ServiceImpl_CreateCcache self w'))).
Proof.
  intros Hcc Hex Hcr Hst w' before. split.
  - destruct (UpdateCcache_renew_attempts_update self cc c w Hcc Hex Hcr Hst)
      as [rest Hrest].
    exists rest. rewrite Hrest. subst before.
    repeat rewrite <- app_assoc. reflexivity.
  - intros Hup.
    rewrite (UpdateCcache_renew_failure_runs_create self cc c w
               Hcc Hex Hcr Hst Hup).
    subst before w'. f_equal. repeat rewrite <- app_assoc. reflexivity.
Qed.

(** C8: when [UpdateCcache] finds the cache file and a cached ticket in
    state [None] (Valid), it returns true and leaves the world as it was;
    the call that follows, started in the world the first one left, returns
    true as well, makes no mutating library call (no [krb5_cc_initialize],
    [krb5_cc_store_cred], [krb5_get_renewed_creds] or
    [krb5_get_init_creds_keytab]) and leaves the world unchanged.  The
    clock is part of the world: the second call reads the same time. *)
Theorem UpdateCcache_valid_idempotent (self : ServiceImpl) (cc : Ccache)
    (c : Creds) (w : W) :
  svc_ccache_ self = Some cc ->
  value (FileInterface_FileExists (Ccache_base cc) w) = Returns true ->
  value (Ccache_GetCreds cc w) = Returns (Some c) ->
  value (Creds_State c w) = Returns State_None ->
  let first := ServiceImpl_UpdateCcache self w in
  let second := ServiceImpl_UpdateCcache self (after first) in
  value first = Returns true /\
  after first = w /\
  value second = Returns true /\
  after second = w /\
  quiet (events second) = true.
Proof.
  intros Hcc Hex Hcr Hst.
  assert (E : ServiceImpl_UpdateCcache self w =
              Run (Returns true) w
                  (events (FileInterface_FileExists (Ccache_base cc) w)
                   ++ events (Ccache_GetCreds cc w)
                   ++ events (Creds_State c w) ++ [])).
  { unfold ServiceImpl_UpdateCcache. rewrite Hcc.
    rewrite (bind_returns _ _ _ _ Hex).
    rewrite (readonly_after _ w (FileExists_readonly _)).
    cbn [negb value after events].
    rewrite (bind_returns _ _ _ _ Hcr).
    rewrite (readonly_after _ w (Ccache_GetCreds_readonly _)).
    cbn [value after events].
    rewrite (bind_returns _ _ _ _ Hst).
    rewrite (readonly_after _ w (Creds_State_readonly c)).
    reflexivity. }
  intros first second. subst second first. rewrite E.
  cbn [value after events]. rewrite E. cbn [value after events].
  repeat split.
  rewrite !quiet_app.
  rewrite (readonly_quiet _ w (FileExists_readonly _)).
  rewrite (readonly_quiet _ w (Ccache_GetCreds_readonly _)).
  rewrite (readonly_quiet _ w (Creds_State_readonly c)).
  reflexivity.
Qed.

(** *** Construction of the stores *)

Ltac run_unfold :=
  unfold bind, query, command, when_, PrintError, emit, ret, fault,
    cfg_read, cfg_read_or.

(** Split on the error tests that are still open. *)
Ltac run_cases :=
  repeat (cbn [value after events fst snd app];
          match goal with
          | |- context [if failed ?x then _ else _] => destruct (failed x)
          end);
  cbn [value after events fst snd app].

Ltac in_trace := cbn [In]; repeat first [left; reflexivity | right].

Lemma FileInterface_Init_run (D C : M W string) (self : FileInterface)
    (w : W) (d c : string) (evd evc : list Event) :
  D w = Run (Returns d) w evd ->
  C w = Run (Returns c) w evc ->
  let mode := cfg_variable_or w "system/type" "manual" in
  FileInterface_Init D C self w =
  Run (Returns {| context_ := context_ self;
                  fullpath_ := resolved_path (fullpath_ self) mode d c;
                  program_type_ := mode |})
      w
      (CfgRead "system/type"
       :: (if (fullpath_ self =? "")%string
           then (if (mode =? "manual")%string then evd else evc)
           else [])).
Proof.
  intros HD HC mode.
  unfold FileInterface_Init, resolved_path, cfg_read_or, bind.
  cbn [value after events]. fold mode.
  destruct (fullpath_ self =? "")%string;
    [destruct (mode =? "manual")%string|];
    rewrite ?HD, ?HC; unfold ret; cbn [value after events app];
    rewrite ?app_nil_r; reflexivity.
Qed.

Lemma Keytab_DefaultName_run (ctx : krb5_context) (w : W) :
  Keytab_DefaultName ctx w =
  Run (Returns (snd (krb5_kt_default_name w ctx))) w
      (Native Call_kt_default_name
       :: (if failed (fst (krb5_kt_default_name w ctx))
           then [KrbError (fst (krb5_kt_default_name w ctx))
                          "krb5_kt_default_name"]
           else [])).
Proof.
  unfold Keytab_DefaultName. run_unfold. cbn [value after events].
  destruct (failed (fst (krb5_kt_default_name w ctx))); reflexivity.
Qed.

Lemma Keytab_ConfigName_run (w : W) :
  Keytab_ConfigName w =
  Run (Returns (cfg_variable_or w "kerberos/keytab"
                  (cfg_variable w "system/progpath" ++ "/keytab")%string))
      w [CfgRead "system/progpath"; CfgRead "kerberos/keytab"].
Proof. reflexivity. Qed.

Lemma Ccache_DefaultName_run (ctx : krb5_context) (w : W) :
  Ccache_DefaultName ctx w =
  Run (Returns (krb5_cc_default_name w ctx)) w [Native Call_cc_default_name].
Proof. reflexivity. Qed.

Lemma Ccache_ConfigName_run (w : W) :
  Ccache_ConfigName w =
  Run (Returns
         (cfg_variable_or w "kerberos/ccache" (cfg_variable w "system/progpath")
          ++ ("/krb5cc_" ++ cfg_variable w "system/progname"))%string)
      w [CfgRead "system/progpath"; CfgRead "kerberos/ccache";
         CfgRead "system/progname"].
Proof. reflexivity. Qed.

(** C9: the constructors of [Keytab] and [Ccache] return a store whose
    path is [resolved_path]: the explicit argument when it is not empty,
    otherwise [DefaultName] when the mode read from [system/type] is
    ["manual"] and [ConfigName] when it is not.  The trace is that of
    [FileInterface::Init], which reads the mode once and opens nothing,
    followed by the library's resolve call on the resolved path (for the
    cache, after [setenv]); what follows opens nothing either. *)
Theorem store_path_resolved_once (ctx : krb5_context) (fullpath : string)
    (w : W) :
  let mode := cfg_variable_or w "system/type" "manual" in
  let kt_path :=
    resolved_path fullpath mode
      (snd (krb5_kt_default_name w ctx))
      (cfg_variable_or w "kerberos/keytab"
         (cfg_variable w "system/progpath" ++ "/keytab")%string) in
  let cc_path :=
    resolved_path fullpath mode
      (krb5_cc_default_name w ctx)
      (cfg_variable_or w "kerberos/ccache" (cfg_variable w "system/progpath")
       ++ ("/krb5cc_" ++ cfg_variable w "system/progname"))%string in
  (exists kt pre post,
     Keytab_new ctx fullpath w =
     Run (Returns kt) w (pre ++ Native (Call_kt_resolve kt_path) :: post) /\
     fullpath_ (Keytab_base kt) = kt_path /\
     program_type_ (Keytab_base kt) = mode /\
     pre = events (FileInterface_Init (Keytab_DefaultName ctx)
                     Keytab_ConfigName (FileInterface_new ctx fullpath) w) /\
     length (filter reads_mode pre) = 1%nat /\
     existsb opens_store pre = false /\
     existsb reads_mode post = false /\
     existsb opens_store post = false) /\
  (exists cc pre post,
     Ccache_new ctx fullpath w =
     Run (Returns cc) (setenv w "KRB5CCNAME" cc_path)
         (pre ++ Native (Call_setenv "KRB5CCNAME" cc_path)
              :: Native (Call_cc_resolve cc_path) :: post) /\
     fullpath_ (Ccache_base cc) = cc_path /\
     program_type_ (Ccache_base cc) = mode /\
     pre = events (FileInterface_Init (Ccache_DefaultName ctx)
                     Ccache_ConfigName (FileInterface_new ctx fullpath) w) /\
     length (filter reads_mode pre) = 1%nat /\
     existsb opens_store pre = false /\
     existsb reads_mode post = false /\
     existsb opens_store post = false).
Proof.
  intros mode kt_path cc_path. split.
  - pose proof (FileInterface_Init_run _ _ (FileInterface_new ctx fullpath)
                  w _ _ _ _ (Keytab_DefaultName_run ctx w)
                  (Keytab_ConfigName_run w)) as HI.
    cbv zeta in HI. fold mode in HI.
    change (fullpath_ (FileInterface_new ctx fullpath)) with fullpath in HI.
    fold kt_path in HI.
    destruct (failed (fst (krb5_kt_resolve w ctx kt_path))) eqn:Er;
      (eexists;
       exists (events (FileInterface_Init (Keytab_DefaultName ctx)
                         Keytab_ConfigName (FileInterface_new ctx fullpath)
                         w));
       eexists; split;
       [unfold Keytab_new;
        rewrite (bind_returns _ _ w _ (f_equal value HI));
        rewrite HI; cbn [value after events];
        unfold FileInterface_FileName; cbn [fullpath_]; run_unfold;
        cbn [value after events fst snd]; rewrite Er;
        cbn [value after events app]; reflexivity|]);
      (split; [reflexivity|]); (split; [reflexivity|]);
      (split; [reflexivity|]); rewrite HI; cbn [events];
      destruct (fullpath =? "")%string;
      try destruct (mode =? "manual")%string;
      try destruct (failed (fst (krb5_kt_default_name w ctx)));
      repeat split; reflexivity.
  - pose proof (FileInterface_Init_run _ _ (FileInterface_new ctx fullpath)
                  w _ _ _ _ (Ccache_DefaultName_run ctx w)
                  (Ccache_ConfigName_run w)) as HI.
    cbv zeta in HI. fold mode in HI.
    change (fullpath_ (FileInterface_new ctx fullpath)) with fullpath in HI.
    fold cc_path in HI.
    destruct (failed (fst (krb5_cc_resolve
                             (setenv w "KRB5CCNAME" cc_path) ctx cc_path)))
      eqn:Er;
      (eexists;
       exists (events (FileInterface_Init (Ccache_DefaultName ctx)
                         Ccache_ConfigName (FileInterface_new ctx fullpath)
                         w));
       eexists; split;
       [unfold Ccache_new;
        rewrite (bind_returns _ _ w _ (f_equal value HI));
        rewrite HI; cbn [value after events];
        unfold FileInterface_FileName; cbn [fullpath_]; run_unfold;
        cbn [value after events fst snd]; rewrite Er;
        cbn [value after events app]; reflexivity|]);
      (split; [reflexivity|]); (split; [reflexivity|]);
      (split; [reflexivity|]); rewrite HI; cbn [events];
      destruct (fullpath =? "")%string;
      try destruct (mode =? "manual")%string;
      repeat split; reflexivity.
Qed.


(** *** Keytab *)

Lemma failed_zero code : code = 0 -> failed code = false.
Proof. intros ->. reflexivity. Qed.

Lemma failed_nonzero code : code <> 0 -> failed code = true.
Proof.
  intros H. unfold failed. destruct (Z.eqb_spec code 0); [contradiction|].
  reflexivity.
Qed.

Lemma Keytab_GetPrincipal_readonly kt : readonly (Keytab_GetPrincipal kt).
Proof. unfold Keytab_GetPrincipal. ro. apply Principal_new_readonly. Qed.

(** When the cursor cannot be opened, [GetPrincipal] reports the error and
    returns null. *)
Lemma Keytab_GetPrincipal_start_failure (self : Keytab) (w : W) :
  let ctx := context_ (Keytab_base self) in
  let s := krb5_kt_start_seq_get w ctx (keytab_ self) in
  fst s <> 0 ->
  Keytab_GetPrincipal self w =
  Run (Returns None) w
      [Native Call_kt_start_seq_get; KrbError (fst s) "krb5_kt_start_seq_get"].
Proof.
  intros ctx s Hs. unfold Keytab_GetPrincipal. fold ctx. run_unfold.
  cbn [value after events]. fold s. rewrite (failed_nonzero _ Hs).
  reflexivity.
Qed.

(** C5, on the code: when the cursor opens and reading the first entry
    fails, [GetPrincipal] reports the error of [krb5_kt_next_entry] and goes
    on: it returns a non-null [Principal], copied from whatever the entry
    variable holds after the failed call. *)
Theorem Keytab_GetPrincipal_next_entry_failure (self : Keytab) (w : W) :
  let ctx := context_ (Keytab_base self) in
  let s := krb5_kt_start_seq_get w ctx (keytab_ self) in
  let n := krb5_kt_next_entry w ctx (keytab_ self) (snd s) in
  fst s = 0 ->
  fst n <> 0 ->
  exists p,
    value (Keytab_GetPrincipal self w) = Returns (Some p) /\
    principal_ p
    = snd (krb5_copy_principal w ctx (principal (fst (snd n)))) /\
    In (KrbError (fst n) "krb5_kt_next_entry")
       (events (Keytab_GetPrincipal self w)).
Proof.
  intros ctx s n Hs Hn.
  unfold Keytab_GetPrincipal, Principal_new. fold ctx. run_unfold.
  cbn [value after events fst snd]. fold s.
  rewrite (failed_zero _ Hs). cbn [value after events fst snd]. fold n.
  rewrite (failed_nonzero _ Hn). run_cases.
  all: eexists; (split; [reflexivity|]); (split; [reflexivity|]); in_trace.
Qed.

(** With no principal from the key table, [GetCreds] returns null. *)
Lemma Keytab_GetCreds_without_principal (self : Keytab) (w : W) :
  value (Keytab_GetPrincipal self w) = Returns None ->
  value (Keytab_GetCreds self w) = Returns None.
Proof.
  intros H. unfold Keytab_GetCreds. rewrite (bind_returns _ _ _ _ H).
  reflexivity.
Qed.

(** C6, on the code: when the key table yields a principal and
    [krb5_get_init_creds_keytab] fails, [GetCreds] reports the error and
    goes on: it returns a non-null [Creds] wrapping whatever the
    [krb5_creds] variable holds after the failed call. *)
Theorem Keytab_GetCreds_exchange_failure (self : Keytab) (w : W)
    (p : Principal) :
  let ctx := context_ (Keytab_base self) in
  let r := krb5_get_init_creds_keytab w ctx (Principal_Ptr p) (keytab_ self) in
  value (Keytab_GetPrincipal self w) = Returns (Some p) ->
  fst (fst r) <> 0 ->
  value (Keytab_GetCreds self w)
  = Returns (Some (Creds_new ctx (snd (fst r)))) /\
  In (KrbError (fst (fst r)) "krb5_get_init_creds_keytab")
     (events (Keytab_GetCreds self w)).
Proof.
  intros ctx r Hp Hr. unfold Keytab_GetCreds. fold ctx.
  rewrite (bind_returns _ _ _ _ Hp).
  rewrite (readonly_after _ w (Keytab_GetPrincipal_readonly self)).
  run_unfold. cbn [value after events fst snd]. fold r.
  rewrite (failed_nonzero _ Hr). cbn [value after events fst snd app].
  split; [reflexivity|].
  apply in_or_app. right. right. left. reflexivity.
Qed.

(** *** Ccache::GetCreds *)

(** C7, on the code: when the client principal of the cache is read and
    copied, and [krb5_build_principal_ext] fails for its realm,
    [GetServerPrincipal] reports the error and returns null; the test
    that follows looks at [principal_client], which is not null, and
    [GetCreds] dereferences the null [principal_server]. *)
Theorem Ccache_GetCreds_server_failure (self : Ccache) (w : W)
    (d : krb5_principal_data) :
  let ctx := context_ (Ccache_base self) in
  let g := krb5_cc_get_principal w ctx (ccache_ self) in
  let b := krb5_build_principal_ext w ctx (realm d) [KRB5_TGS_NAME; realm d] in
  fst g = 0 ->
  snd (krb5_copy_principal w ctx (snd g)) = Some d ->
  fst b <> 0 ->
  value (Ccache_GetCreds self w) = NullDeref /\
  In (KrbError (fst b) "krb5_build_principal_ext")
     (events (Ccache_GetCreds self w)).
Proof.
  intros ctx g b Hg Hd Hb.
  unfold Ccache_GetCreds, Ccache_GetPrincipal, Ccache_GetServerPrincipal,
    Principal_new, Principal_Realm, deref, is_null.
  fold ctx. run_unfold. cbn [value after events fst snd]. fold g.
  rewrite Hg, Z.eqb_refl.
  destruct (failed (fst (krb5_copy_principal w ctx (snd g))));
    cbn [value after events fst snd app principal_];
    rewrite Hd; cbn [value after events fst snd app]; fold b;
    rewrite (proj2 (Z.eqb_neq _ _) Hb);
    cbn [value after events fst snd app];
    (split; [reflexivity | in_trace]).
Qed.

(** *** The read-back after a write *)

Lemma log_times_without_creds (cc : Ccache) (text : string) (w : W) :
  value (Ccache_GetCreds cc w) = Returns None ->
  value (log_times cc text w) = NullDeref.
Proof.
  intros H. unfold log_times. rewrite (bind_returns _ _ _ _ H).
  reflexivity.
Qed.

(** C10, on the code: when [Create] has returned true and the read-back
    [GetCreds] returns null, [CreateCcache] dereferences the null
    pointer. *)
Theorem CreateCcache_readback_unchecked (self : ServiceImpl) (cc : Ccache)
    (kt : Keytab) (w : W) (p : shared_ptr Principal) (c : shared_ptr Creds) :
  svc_ccache_ self = Some cc ->
  svc_keytab_ self = Some kt ->
  value (Keytab_GetPrincipal kt w) = Returns p ->
  value (Keytab_GetCreds kt w) = Returns c ->
  let w1 := after (Keytab_GetCreds kt w) in
  value (Ccache_Create cc p c w1) = Returns true ->
  let w2 := after (Ccache_Create cc p c w1) in
  value (Ccache_GetCreds cc w2) = Returns None ->
  value (ServiceImpl_CreateCcache self w) = NullDeref.
Proof.
  intros Hcc Hkt Hp Hc w1 Hcr w2 Hg.
  unfold ServiceImpl_CreateCcache. rewrite Hcc, Hkt.
  rewrite bind_emit. cbn [value].
  rewrite (bind_returns _ _ _ _ Hp).
  rewrite (readonly_after _ w (Keytab_GetPrincipal_readonly kt)).
  cbn [value].
  rewrite (bind_returns _ _ _ _ Hc). fold w1. cbn [value].
  rewrite (bind_returns _ _ _ _ Hcr). fold w2. cbn [value].
  rewrite (bind_fault _ _ _ (log_times_without_creds cc _ w2 Hg)).
  reflexivity.
Qed.

(** The same in the renew branch of [UpdateCcache]: after a successful
    [Update], a null read-back is dereferenced. *)
Lemma UpdateCcache_readback_unchecked (self : ServiceImpl) (cc : Ccache)
    (c : Creds) (w : W) :
  svc_ccache_ self = Some cc ->
  value (FileInterface_FileExists (Ccache_base cc) w) = Returns true ->
  value (Ccache_GetCreds cc w) = Returns (Some c) ->
  value (Creds_State c w) = Returns State_Renew ->
  value (Ccache_Update cc w) = Returns true ->
  value (Ccache_GetCreds cc (after (Ccache_Update cc w))) = Returns None ->
  value (ServiceImpl_UpdateCcache self w) = NullDeref.
Proof.
  intros Hcc Hex Hcr Hst Hup Hg. unfold ServiceImpl_UpdateCcache.
  rewrite Hcc.
  rewrite (bind_returns _ _ _ _ Hex).
  rewrite (readonly_after _ w (FileExists_readonly _)).
  cbn [negb value].
  rewrite (bind_returns _ _ _ _ Hcr).
  rewrite (readonly_after _ w (Ccache_GetCreds_readonly _)).
  cbn [value].
  rewrite (bind_returns _ _ _ _ Hst).
  rewrite (readonly_after _ w (Creds_State_readonly c)).
  cbn [value].
  rewrite bind_emit. cbn [value].
  rewrite (bind_returns _ _ _ _ Hup). cbn [value].
  rewrite (bind_fault _ _ _ (log_times_without_creds cc _ _ Hg)).
  reflexivity.
Qed.

End Properties.

(** ** The theorems on concrete states *)

(** C2, as stated, fails: for a ticket that is not renewable, valid until
    1600, at time 1000, the time is past [renew_until_time] and the state
    is [None] (Valid), not [Reinit]. *)
Lemma Creds_State_past_renew_till_still_valid :
  snd (krb5_timeofday (sim_world 1000 None)
         (Creds_context_ sim_creds_nonrenewable))
  >= Creds_RenewTime sim_creds_nonrenewable /\
  value (Creds_State sim_creds_nonrenewable (sim_world 1000 None))
  = Returns State_None /\
  value (Creds_State sim_creds_nonrenewable (sim_world 1000 None))
  <> Returns State_Reinit.
Proof.
  cbn. repeat split; try lia; discriminate.
Qed.

Lemma UpdateCcache_without_file_witness :
  (svc_ccache_ sim_service = Some sim_ccache_obj /\
   value (FileInterface_FileExists (Ccache_base sim_ccache_obj)
            (sim_world 1000 None)) = Returns false) /\
  value (ServiceImpl_UpdateCcache sim_service (sim_world 1000 None))
  = value (ServiceImpl_CreateCcache sim_service (sim_world 1000 None)).
Proof.
  assert (H1 : value (FileInterface_FileExists (Ccache_base sim_ccache_obj)
                        (sim_world 1000 None)) = Returns false)
    by (vm_compute; reflexivity).
  split; [split; [reflexivity | exact H1]|].
  rewrite (UpdateCcache_without_file sim_service sim_ccache_obj
             (sim_world 1000 None) eq_refl H1).
  reflexivity.
Defined.

(** The cached ticket ended at 1600 and is renewable until 5000; at time
    2000 the KDC refuses to renew it, and issues a new one. *)
Lemma UpdateCcache_renew_fallback_witness :
  (svc_ccache_ sim_service = Some sim_ccache_obj /\
   value (FileInterface_FileExists (Ccache_base sim_ccache_obj)
            sim_world_renew_refused) = Returns true /\
   value (Ccache_GetCreds sim_ccache_obj sim_world_renew_refused)
   = Returns (Some sim_creds_expired) /\
   value (Creds_State sim_creds_expired sim_world_renew_refused)
   = Returns State_Renew /\
   value (Ccache_Update sim_ccache_obj sim_world_renew_refused)
   = Returns false) /\
  value (ServiceImpl_UpdateCcache sim_service sim_world_renew_refused)
  = value (ServiceImpl_CreateCcache sim_service
             (after (Ccache_Update sim_ccache_obj sim_world_renew_refused))).
Proof.
  assert (H1 : value (FileInterface_FileExists (Ccache_base sim_ccache_obj)
                        sim_world_renew_refused) = Returns true)
    by (vm_compute; reflexivity).
  assert (H2 : value (Ccache_GetCreds sim_ccache_obj sim_world_renew_refused)
               = Returns (Some sim_creds_expired))
    by (vm_compute; reflexivity).
  assert (H3 : value (Creds_State sim_creds_expired sim_world_renew_refused)
               = Returns State_Renew) by (vm_compute; reflexivity).
  assert (H4 : value (Ccache_Update sim_ccache_obj sim_world_renew_refused)
               = Returns false) by (vm_compute; reflexivity).
  split; [repeat split; assumption|].
  destruct (UpdateCcache_renew_fallback sim_service sim_ccache_obj
              sim_creds_expired sim_world_renew_refused eq_refl H1 H2 H3)
    as [_ H].
  rewrite (H H4). reflexivity.
Defined.

(** The cached ticket is valid until 1600; the time is 1000. *)
Lemma UpdateCcache_valid_idempotent_witness :
  (svc_ccache_ sim_service = Some sim_ccache_obj /\
   value (FileInterface_FileExists (Ccache_base sim_ccache_obj)
            sim_world_valid) = Returns true /\
   value (Ccache_GetCreds sim_ccache_obj sim_world_valid)
   = Returns (Some sim_creds_valid) /\
   value (Creds_State sim_creds_valid sim_world_valid)
   = Returns State_None) /\
  value (ServiceImpl_UpdateCcache sim_service sim_world_valid)
  = Returns true /\
  after (ServiceImpl_UpdateCcache sim_service sim_world_valid)
  = sim_world_valid /\
  value (ServiceImpl_UpdateCcache sim_service
           (after (ServiceImpl_UpdateCcache sim_service sim_world_valid)))
  = Returns true /\
  after (ServiceImpl_UpdateCcache sim_service
           (after (ServiceImpl_UpdateCcache sim_service sim_world_valid)))
  = sim_world_valid /\
  quiet (events (ServiceImpl_UpdateCcache sim_service
                   (after (ServiceImpl_UpdateCcache sim_service
                             sim_world_valid)))) = true.
Proof.
  assert (H1 : value (FileInterface_FileExists (Ccache_base sim_ccache_obj)
                        sim_world_valid) = Returns true)
    by (vm_compute; reflexivity).
  assert (H2 : value (Ccache_GetCreds sim_ccache_obj sim_world_valid)
               = Returns (Some sim_creds_valid))
    by (vm_compute; reflexivity).
  assert (H3 : value (Creds_State sim_creds_valid sim_world_valid)
               = Returns State_None) by (vm_compute; reflexivity).
  split; [repeat split; assumption|].
  exact (UpdateCcache_valid_idempotent sim_service sim_ccache_obj
           sim_creds_valid sim_world_valid eq_refl H1 H2 H3).
Defined.

(** An empty key table: the cursor opens, the first read returns
    [KRB5_KT_END], and [GetPrincipal] still returns an object. *)
Lemma Keytab_GetPrincipal_next_entry_failure_witness :
  (fst (krb5_kt_start_seq_get sim_world_empty_keytab (Some 7%N) (Some 1%N))
   = 0 /\
   fst (krb5_kt_next_entry sim_world_empty_keytab (Some 7%N) (Some 1%N)
          (Some 0%N)) = KRB5_KT_END) /\
  exists p,
    value (Keytab_GetPrincipal sim_keytab_obj sim_world_empty_keytab)
    = Returns (Some p) /\
    principal_ p = None /\
    In (KrbError KRB5_KT_END "krb5_kt_next_entry")
       (events (Keytab_GetPrincipal sim_keytab_obj sim_world_empty_keytab)).
Proof.
  split; [split; reflexivity|].
  assert (H1 : fst (krb5_kt_start_seq_get sim_world_empty_keytab
                      (context_ (Keytab_base sim_keytab_obj))
                      (keytab_ sim_keytab_obj)) = 0) by reflexivity.
  assert (H2 : fst (krb5_kt_next_entry sim_world_empty_keytab
                      (context_ (Keytab_base sim_keytab_obj))
                      (keytab_ sim_keytab_obj)
                      (snd (krb5_kt_start_seq_get sim_world_empty_keytab
                              (context_ (Keytab_base sim_keytab_obj))
                              (keytab_ sim_keytab_obj)))) <> 0)
    by (vm_compute; discriminate).
  exact (Keytab_GetPrincipal_next_entry_failure sim_keytab_obj
           sim_world_empty_keytab H1 H2).
Defined.

(** No KDC answers: [krb5_get_init_creds_keytab] returns
    [KRB5_KDC_UNREACH], and [GetCreds] still returns an object, holding the
    uninitialised [krb5_creds]. *)
Lemma Keytab_GetCreds_exchange_failure_witness :
  (value (Keytab_GetPrincipal sim_keytab_obj sim_world_no_kdc)
   = Returns (Some sim_principal_obj) /\
   fst (fst (krb5_get_init_creds_keytab sim_world_no_kdc (Some 7%N)
               (Some svc_name) (Some 1%N))) = KRB5_KDC_UNREACH) /\
  value (Keytab_GetCreds sim_keytab_obj sim_world_no_kdc)
  = Returns (Some (Creds_new (Some 7%N) junk_creds)) /\
  In (KrbError KRB5_KDC_UNREACH "krb5_get_init_creds_keytab")
     (events (Keytab_GetCreds sim_keytab_obj sim_world_no_kdc)).
Proof.
  assert (H1 : value (Keytab_GetPrincipal sim_keytab_obj sim_world_no_kdc)
               = Returns (Some sim_principal_obj))
    by (vm_compute; reflexivity).
  assert (H2 : fst (fst (krb5_get_init_creds_keytab sim_world_no_kdc
                           (context_ (Keytab_base sim_keytab_obj))
                           (Principal_Ptr sim_principal_obj)
                           (keytab_ sim_keytab_obj))) <> 0)
    by (vm_compute; discriminate).
  split; [split; [exact H1 | reflexivity]|].
  exact (Keytab_GetCreds_exchange_failure sim_keytab_obj sim_world_no_kdc
           sim_principal_obj H1 H2).
Defined.

(** The cache holds a valid ticket and the library cannot allocate the
    server name ([ENOMEM]). *)
Lemma Ccache_GetCreds_server_failure_witness :
  (fst (krb5_cc_get_principal sim_world_alloc_fault (Some 7%N) (Some 2%N))
   = 0 /\
   snd (krb5_copy_principal sim_world_alloc_fault (Some 7%N)
          (Some svc_name)) = Some svc_name /\
   fst (krb5_build_principal_ext sim_world_alloc_fault (Some 7%N)
          "EXAMPLE.ORG" [KRB5_TGS_NAME; "EXAMPLE.ORG"]) = ENOMEM) /\
  value (Ccache_GetCreds sim_ccache_obj sim_world_alloc_fault) = NullDeref /\
  In (KrbError ENOMEM "krb5_build_principal_ext")
     (events (Ccache_GetCreds sim_ccache_obj sim_world_alloc_fault)).
Proof.
  split; [repeat split|].
  assert (H1 : fst (krb5_cc_get_principal sim_world_alloc_fault
                      (context_ (Ccache_base sim_ccache_obj))
                      (ccache_ sim_ccache_obj)) = 0) by reflexivity.
  assert (H2 : snd (krb5_copy_principal sim_world_alloc_fault
                      (context_ (Ccache_base sim_ccache_obj))
                      (snd (krb5_cc_get_principal sim_world_alloc_fault
                              (context_ (Ccache_base sim_ccache_obj))
                              (ccache_ sim_ccache_obj))))
               = Some svc_name) by reflexivity.
  assert (H3 : fst (krb5_build_principal_ext sim_world_alloc_fault
                      (context_ (Ccache_base sim_ccache_obj))
                      (realm svc_name) [KRB5_TGS_NAME; realm svc_name]) <> 0)
    by (vm_compute; discriminate).
  exact (Ccache_GetCreds_server_failure sim_ccache_obj sim_world_alloc_fault
           svc_name H1 H2 H3).
Defined.

(** The cache is written, and reading it back fails with [KRB5_CC_IO]. *)
Lemma CreateCcache_readback_unchecked_witness :
  (value (Keytab_GetPrincipal sim_keytab_obj sim_world_read_fault)
   = Returns (Some sim_principal_obj) /\
   value (Keytab_GetCreds sim_keytab_obj sim_world_read_fault)
   = Returns (Some sim_creds_fresh) /\
   value (Ccache_Create sim_ccache_obj (Some sim_principal_obj)
            (Some sim_creds_fresh)
            (after (Keytab_GetCreds sim_keytab_obj sim_world_read_fault)))
   = Returns true /\
   value (Ccache_GetCreds sim_ccache_obj
            (after (Ccache_Create sim_ccache_obj (Some sim_principal_obj)
                      (Some sim_creds_fresh)
                      (after (Keytab_GetCreds sim_keytab_obj
                                sim_world_read_fault)))))
   = Returns None) /\
  value (ServiceImpl_CreateCcache sim_service sim_world_read_fault)
  = NullDeref.
Proof.
  assert (H1 : value (Keytab_GetPrincipal sim_keytab_obj sim_world_read_fault)
               = Returns (Some sim_principal_obj))
    by (vm_compute; reflexivity).
  assert (H2 : value (Keytab_GetCreds sim_keytab_obj sim_world_read_fault)
               = Returns (Some sim_creds_fresh))
    by (vm_compute; reflexivity).
  assert (H3 : value (Ccache_Create sim_ccache_obj (Some sim_principal_obj)
                        (Some sim_creds_fresh)
                        (after (Keytab_GetCreds sim_keytab_obj
                                  sim_world_read_fault)))
               = Returns true) by (vm_compute; reflexivity).
  assert (H4 : value (Ccache_GetCreds sim_ccache_obj
                        (after (Ccache_Create sim_ccache_obj
                                  (Some sim_principal_obj)
                                  (Some sim_creds_fresh)
                                  (after (Keytab_GetCreds sim_keytab_obj
                                            sim_world_read_fault)))))
               = Returns None) by (vm_compute; reflexivity).
  split; [repeat split; assumption|].
  exact (CreateCcache_readback_unchecked sim_service sim_ccache_obj
           sim_keytab_obj sim_world_read_fault (Some sim_principal_obj)
           (Some sim_creds_fresh) eq_refl eq_refl H1 H2 H3 H4).
Defined.

(** ** Further properties of the program *)

Section TraceLaws.
Context {W : Type}.

Lemma never_app P l1 l2 : never P (l1 ++ l2) = never P l1 && never P l2.
Proof. apply forallb_app. Qed.

Lemma count_app P l1 l2 : count P (l1 ++ l2) = (count P l1 + count P l2)%nat.
Proof. unfold count. rewrite filter_app, length_app. reflexivity. Qed.

Lemma avoids_ret P {A} (a : A) : avoids (W := W) P (ret a).
Proof. intros w. reflexivity. Qed.

Lemma avoids_fault P {A} : avoids (W := W) (A := A) P fault.
Proof. intros w. reflexivity. Qed.

Lemma avoids_emit P e : P e = false -> avoids (W := W) P (emit e).
Proof.
  intros H w. unfold emit, never. cbn [events forallb]. rewrite H.
  reflexivity.
Qed.

Lemma avoids_query P {A} c (f : W -> A) :
  P (Native c) = false -> avoids P (query c f).
Proof.
  intros H w. unfold query, never. cbn [events forallb]. rewrite H.
  reflexivity.
Qed.

Lemma avoids_command P {A} c (f : W -> A * W) :
  P (Native c) = false -> avoids P (command c f).
Proof.
  intros H w. unfold command, never. cbn [events forallb]. rewrite H.
  reflexivity.
Qed.

Lemma avoids_bind P {A B} (m : M W A) (k : A -> M W B) :
  avoids P m -> (forall a, avoids P (k a)) -> avoids P (bind m k).
Proof.
  intros Hm Hk w. specialize (Hm w). unfold bind.
  destruct (m w) as [[a|] w1 e1]; cbn [events] in *; [|assumption].
  specialize (Hk a w1). destruct (k a w1) as [v w2 e2]. cbn [events] in *.
  rewrite never_app, Hm, Hk. reflexivity.
Qed.

Lemma avoids_when P b (m : M W unit) : avoids P m -> avoids P (when_ b m).
Proof. intros H. destruct b; cbn; [assumption | apply avoids_ret]. Qed.

(** What a finished [bind] tells about its two parts. *)
Lemma bind_inv {A B} (m : M W A) (k : A -> M W B) w b :
  value (bind m k w) = Returns b ->
  exists a,
    value (m w) = Returns a /\
    value (k a (after (m w))) = Returns b /\
    events (bind m k w) = events (m w) ++ events (k a (after (m w))).
Proof.
  unfold bind. destruct (m w) as [[a|] w1 e1]; cbn [value after events].
  - destruct (k a w1) as [v w2 e2] eqn:E. cbn [value]. intros ->.
    exists a. rewrite E. repeat split.
  - discriminate.
Qed.

Lemma bind_query {A B} c (f : W -> A) (k : A -> M W B) w :
  bind (query c f) k w =
  Run (value (k (f w) w)) (after (k (f w) w))
      ([Native c] ++ events (k (f w) w)).
Proof. unfold bind, query. destruct (k (f w) w). reflexivity. Qed.

Lemma bind_command {A B} c (f : W -> A * W) (k : A -> M W B) w :
  bind (command c f) k w =
  Run (value (k (fst (f w)) (snd (f w)))) (after (k (fst (f w)) (snd (f w))))
      ([Native c] ++ events (k (fst (f w)) (snd (f w)))).
Proof.
  unfold bind, command. destruct (k (fst (f w)) (snd (f w))). reflexivity.
Qed.

End TraceLaws.

Ltac av_step :=
  match goal with
  | |- avoids _ (bind _ _) => apply avoids_bind; [| intros ?]
  | |- avoids _ (query _ _) => apply avoids_query; reflexivity
  | |- avoids _ (command _ _) => apply avoids_command; reflexivity
  | |- avoids _ (emit _) => apply avoids_emit; reflexivity
  | |- avoids _ (PrintError _ _) => apply avoids_emit; reflexivity
  | |- avoids _ (when_ _ _) => apply avoids_when
  | |- avoids _ (ret _) => apply avoids_ret
  | |- avoids _ fault => apply avoids_fault
  | |- avoids _ (if ?b then _ else _) => destruct b
  | |- avoids _ (match ?x with _ => _ end) => destruct x
  end.

Ltac av := repeat av_step.

Ltac unfold_run :=
  unfold bind, query, command, when_, PrintError, emit, ret, fault,
    cfg_read, cfg_read_or.

Ltac in_trace_more := cbn [In]; repeat first [left; reflexivity | right].

Ltac split_errors :=
  repeat (cbn [value after events fst snd app];
          match goal with
          | |- context [if failed ?x then _ else _] => destruct (failed x)
          end);
  cbn [value after events fst snd app].

Section MoreProperties.
Context {W : Type} {lib : Krb5Lib W}.

(** *** Classes of events each method stays out of *)

Lemma Principal_new_avoids P ctx p :
  P (Native Call_copy_principal) = false ->
  (forall c m, P (KrbError c m) = false) ->
  avoids P (Principal_new ctx p).
Proof.
  intros H1 H2. unfold Principal_new.
  apply avoids_bind; [apply avoids_query; assumption | intros r].
  apply avoids_bind; [apply avoids_when, avoids_emit, H2 | intros _].
  apply avoids_ret.
Qed.

(** *** FileInterface::FileExists *)

Lemma substring_whole (s : string) : substring 0 (String.length s) s = s.
Proof. induction s as [|a s IH]; cbn; [reflexivity | rewrite IH; reflexivity]. Qed.

Lemma strip_prefix_FILE (p : string) :
  strip_prefix "FILE:" ("FILE:" ++ p)%string = p.
Proof.
  unfold strip_prefix.
  assert (Hp : String.prefix "FILE:" ("FILE:" ++ p)%string = true).
  { cbn. destruct p; reflexivity. }
  rewrite Hp. cbn [String.append String.length].
  change (substring 5 (5 + String.length p - 5) ("FILE:" ++ p)%string = p).
  replace (5 + String.length p - 5)%nat with (String.length p) by lia.
  cbn [String.append substring]. apply substring_whole.
Qed.

(** X1: for a store whose path is ["FILE:" ++ p], [FileExists] asks the
    filesystem about [p], with the prefix taken off once; it returns what
    the filesystem says, and false, with an error line, when the test
    throws.  It never changes the world. *)
Theorem FileExists_strips_FILE_prefix (ctx : krb5_context) (p pt : string)
    (w : W) :
  FileInterface_FileExists
    {| context_ := ctx; fullpath_ := ("FILE:" ++ p)%string;
       program_type_ := pt |} w
  = Run (Returns (match fs_exists w p with Some b => b | None => false end))
        w
        (Native (Call_fs_exists p)
         :: match fs_exists w p with
            | Some _ => []
            | None => [LogError "Ошибка доступа к файлу"]
            end).
Proof.
  unfold FileInterface_FileExists. cbn [fullpath_].
  rewrite strip_prefix_FILE. unfold_run. cbn [value after events].
  destruct (fs_exists w p); reflexivity.
Qed.

(** *** Creds::State over time *)

(** X2: for one credential the state never moves backwards: if the clock
    of a second world is not earlier than that of the first, the state read
    there is the same or a later one in the order None, Renew, Reinit. *)
Theorem Creds_State_monotone (c : Creds) (w1 w2 : W) (s1 s2 : State) :
  snd (krb5_timeofday w1 (Creds_context_ c))
  <= snd (krb5_timeofday w2 (Creds_context_ c)) ->
  value (Creds_State c w1) = Returns s1 ->
  value (Creds_State c w2) = Returns s2 ->
  (State_rank s1 <= State_rank s2)%nat.
Proof.
  unfold Creds_State. unfold_run. cbn [value after events].
  intros Hle H1 H2. injection H1 as <-. injection H2 as <-.
  repeat match goal with
         | |- context [?a >=? ?b] => destruct (Z.geb_spec a b)
         end; cbn; lia.
Qed.

(** *** Keytab: the cursor *)

(** X3: [Keytab::GetPrincipal] opens the cursor once; when that succeeds
    it reads one entry and closes the cursor once, whether or not the read
    succeeds; when it fails it neither reads nor closes. *)
Theorem Keytab_GetPrincipal_cursor (self : Keytab) (w : W) :
  let ctx := context_ (Keytab_base self) in
  let opened := fst (krb5_kt_start_seq_get w ctx (keytab_ self)) =? 0 in
  let ev := events (Keytab_GetPrincipal self w) in
  count opens_cursor ev = 1%nat /\
  count reads_entry ev = (if opened then 1 else 0)%nat /\
  count closes_cursor ev = (if opened then 1 else 0)%nat.
Proof.
  intros ctx opened ev. subst ev opened.
  unfold Keytab_GetPrincipal, Principal_new. fold ctx. unfold_run.
  cbn [value after events fst snd].
  destruct (Z.eqb_spec (fst (krb5_kt_start_seq_get w ctx (keytab_ self))) 0)
    as [E|E];
    [rewrite (failed_zero _ E) | rewrite (failed_nonzero _ E)];
    split_errors; repeat split; reflexivity.
Qed.



(** *** Ccache::GetCreds *)

(** X6: when the cache has no readable principal, [Ccache::GetCreds]
    reports the error of [krb5_cc_get_principal] and returns null after
    that single library call: it builds no server name and looks nothing
    up. *)
Theorem Ccache_GetCreds_without_client (self : Ccache) (w : W) :
  let ctx := context_ (Ccache_base self) in
  let g := krb5_cc_get_principal w ctx (ccache_ self) in
  fst g <> 0 ->
  Ccache_GetCreds self w
  = Run (Returns None) w
        [Native Call_cc_get_principal;
         KrbError (fst g) "krb5_cc_get_principal"].
Proof.
  intros ctx g Hg.
  unfold Ccache_GetCreds, Ccache_GetPrincipal. fold ctx. unfold_run.
  cbn [value after events fst snd]. fold g.
  rewrite (proj2 (Z.eqb_neq _ _) Hg). reflexivity.
Qed.

(** X7: when the client principal is read and copied and the server name
    is built, [Ccache::GetCreds] looks up the ticket whose client is the
    cache's principal and whose server is [krbtgt/REALM@REALM] for the
    client's realm; it returns the ticket found when
    [krb5_cc_retrieve_cred] returns 0, and null with the error reported
    otherwise. *)
Theorem Ccache_GetCreds_lookup (self : Ccache) (w : W)
    (d : krb5_principal_data) :
  let ctx := context_ (Ccache_base self) in
  let g := krb5_cc_get_principal w ctx (ccache_ self) in
  let b := krb5_build_principal_ext w ctx (realm d) [KRB5_TGS_NAME; realm d] in
  let creds_find :=
    {| client := Some d;
       server := snd (krb5_copy_principal w ctx (snd b));
       times := zero_times;
       ticket := "" |} in
  let r := krb5_cc_retrieve_cred w ctx (ccache_ self) creds_find in
  fst g = 0 ->
  snd (krb5_copy_principal w ctx (snd g)) = Some d ->
  fst b = 0 ->
  value (Ccache_GetCreds self w)
  = Returns (if fst r =? 0 then Some (Creds_new ctx (snd r)) else None) /\
  (fst r <> 0 ->
   In (KrbError (fst r) "krb5_cc_retrieve_cred")
      (events (Ccache_GetCreds self w))).
Proof.
  intros ctx g b creds_find r Hg Hd Hb.
  unfold Ccache_GetCreds, Ccache_GetPrincipal, Ccache_GetServerPrincipal,
    Principal_new, Principal_Realm, Principal_Ptr, deref, is_null.
  fold ctx. unfold_run. cbn [value after events fst snd]. fold g.
  rewrite Hg, Z.eqb_refl.
  destruct (failed (fst (krb5_copy_principal w ctx (snd g))));
    cbn [value after events fst snd app principal_];
    rewrite Hd; cbn [value after events fst snd app]; fold b;
    rewrite Hb, Z.eqb_refl;
    destruct (failed (fst (krb5_copy_principal w ctx (snd b))));
    cbn [value after events fst snd app principal_];
    fold creds_find; fold r;
    destruct (Z.eqb_spec (fst r) 0) as [Er|Er];
    cbn [value after events fst snd app];
    (split; [reflexivity|]); intros Hr;
    try contradiction; cbn [In]; repeat first [left; reflexivity | right].
Qed.

(** *** Ccache::Update *)

Ltac unfold_program :=
  unfold ServiceImpl_UpdateCcache, ServiceImpl_CreateCcache, log_times,
    Ccache_Update, Ccache_Create, Ccache_GetCreds, Ccache_GetPrincipal,
    Ccache_GetServerPrincipal, Keytab_GetCreds, Keytab_GetPrincipal,
    Creds_TimesInfo, Creds_TimeToString, Creds_State,
    FileInterface_FileExists, Principal_new, Principal_Realm, deref.

Lemma Ccache_GetPrincipal_returns (self : Ccache) (w : W) :
  exists p, value (Ccache_GetPrincipal self w) = Returns p.
Proof.
  unfold Ccache_GetPrincipal, Principal_new. unfold_run.
  cbn [value after events fst snd].
  destruct (fst (krb5_cc_get_principal w (context_ (Ccache_base self))
                   (ccache_ self)) =? 0);
    split_errors; eexists; reflexivity.
Qed.

Lemma Ccache_reads_write_nothing (self : Ccache) :
  avoids writes_cache (Ccache_GetPrincipal self) /\
  avoids writes_cache (Ccache_GetCreds self) /\
  avoids is_renewal (Ccache_GetPrincipal self) /\
  avoids is_renewal (Ccache_GetCreds self).
Proof. repeat split; unfold_program; av. Qed.

(** X8: when the cache cannot be read ([Ccache::GetCreds] returns null),
    [Ccache::Update] returns false without asking the KDC for a renewal and
    without writing the cache, and the world is unchanged. *)
Theorem Ccache_Update_unreadable_cache (self : Ccache) (w : W) :
  value (Ccache_GetCreds self w) = Returns None ->
  value (Ccache_Update self w) = Returns false /\
  after (Ccache_Update self w) = w /\
  never is_renewal (events (Ccache_Update self w)) = true /\
  never writes_cache (events (Ccache_Update self w)) = true.
Proof.
  intros Hc. destruct (Ccache_GetPrincipal_returns self w) as [p Hp].
  destruct (Ccache_reads_write_nothing self) as (W1 & W2 & R1 & R2).
  unfold Ccache_Update.
  rewrite (bind_returns _ _ _ _ Hp).
  rewrite (readonly_after _ w (Ccache_GetPrincipal_readonly self)).
  rewrite (bind_returns _ _ _ _ Hc).
  rewrite (readonly_after _ w (Ccache_GetCreds_readonly self)).
  cbn [value after events].
  destruct p; cbn [ret value after events]; rewrite ?app_nil_r;
    rewrite !never_app, W1, W2, R1, R2; repeat split; reflexivity.
Qed.

(** X9: when the KDC refuses the renewal, [Ccache::Update] reports the
    error and returns false; the cache is not written (neither
    [krb5_cc_initialize] nor [krb5_cc_store_cred] is called), and the world
    is the one the renewal request left. *)
Theorem Ccache_Update_failed_renewal (self : Ccache) (w : W)
    (p : Principal) (c : Creds) :
  let ctx := context_ (Ccache_base self) in
  let r := krb5_get_renewed_creds w ctx (Creds_Ptr c) (Principal_Ptr p)
             (ccache_ self) in
  value (Ccache_GetPrincipal self w) = Returns (Some p) ->
  value (Ccache_GetCreds self w) = Returns (Some c) ->
  fst (fst r) <> 0 ->
  value (Ccache_Update self w) = Returns false /\
  after (Ccache_Update self w) = snd r /\
  never writes_cache (events (Ccache_Update self w)) = true /\
  In (KrbError (fst (fst r)) "krb5_get_renewed_creds")
     (events (Ccache_Update self w)).
Proof.
  intros ctx r Hp Hc Hr.
  destruct (Ccache_reads_write_nothing self) as (W1 & W2 & _ & _).
  unfold Ccache_Update. fold ctx.
  rewrite (bind_returns _ _ _ _ Hp).
  rewrite (readonly_after _ w (Ccache_GetPrincipal_readonly self)).
  rewrite (bind_returns _ _ _ _ Hc).
  rewrite (readonly_after _ w (Ccache_GetCreds_readonly self)).
  cbn [value after events].
  rewrite bind_command. fold r. rewrite (failed_nonzero _ Hr).
  unfold_run. cbn [value after events app].
  rewrite !never_app, W1, W2. repeat split.
  apply in_or_app. right. apply in_or_app. right. in_trace_more.
Qed.

(** X10: when the KDC renews, [Ccache::Update] is [Ccache::Create] called,
    in the world the renewal left, with the principal read from the cache
    and the renewed ticket (not the one read from the cache): it returns
    what [Create] returns. *)
Theorem Ccache_Update_stores_renewed (self : Ccache) (w : W)
    (p : Principal) (c : Creds) :
  let ctx := context_ (Ccache_base self) in
  let r := krb5_get_renewed_creds w ctx (Creds_Ptr c) (Principal_Ptr p)
             (ccache_ self) in
  let renewed := {| Creds_context_ := Creds_context_ c;
                    creds_ := snd (fst r) |} in
  let create := Ccache_Create self (Some p) (Some renewed) (snd r) in
  value (Ccache_GetPrincipal self w) = Returns (Some p) ->
  value (Ccache_GetCreds self w) = Returns (Some c) ->
  fst (fst r) = 0 ->
  Ccache_Update self w
  = Run (value create) (after create)
        (events (Ccache_GetPrincipal self w)
         ++ events (Ccache_GetCreds self w)
         ++ [Native Call_get_renewed_creds]
         ++ events create).
Proof.
  intros ctx r renewed create Hp Hc Hr.
  unfold Ccache_Update. fold ctx.
  rewrite (bind_returns _ _ _ _ Hp).
  rewrite (readonly_after _ w (Ccache_GetPrincipal_readonly self)).
  rewrite (bind_returns _ _ _ _ Hc).
  rewrite (readonly_after _ w (Ccache_GetCreds_readonly self)).
  cbn [value after events].
  rewrite bind_command. fold r. rewrite (failed_zero _ Hr).
  reflexivity.
Qed.

(** *** ServiceImpl::CreateCcache *)

Lemma Keytab_GetCreds_start_failure (self : Keytab) (w : W) :
  let ctx := context_ (Keytab_base self) in
  let s := krb5_kt_start_seq_get w ctx (keytab_ self) in
  fst s <> 0 ->
  Keytab_GetCreds self w =
  Run (Returns None) w
      [Native Call_kt_start_seq_get; KrbError (fst s) "krb5_kt_start_seq_get"].
Proof.
  intros ctx s Hs. unfold Keytab_GetCreds.
  pose proof (Keytab_GetPrincipal_start_failure self w Hs) as HP.
  cbv zeta in HP. fold ctx in HP. fold s in HP.
  rewrite (bind_returns _ _ _ _ (f_equal value HP)). rewrite HP.
  reflexivity.
Qed.

(** X11: when the key table cannot be opened, [CreateCcache] returns false
    after two attempts to open it (one by [GetPrincipal], one inside
    [GetCreds]); it asks the KDC nothing, does not touch the cache and
    leaves the world as it was. *)
Theorem CreateCcache_unreadable_keytab (self : ServiceImpl) (cc : Ccache)
    (kt : Keytab) (w : W) :
  let s := krb5_kt_start_seq_get w (context_ (Keytab_base kt)) (keytab_ kt) in
  svc_ccache_ self = Some cc ->
  svc_keytab_ self = Some kt ->
  fst s <> 0 ->
  ServiceImpl_CreateCcache self w =
  Run (Returns false) w
      [LogInfo "Создание Ccache";
       Native Call_kt_start_seq_get; KrbError (fst s) "krb5_kt_start_seq_get";
       Native Call_kt_start_seq_get; KrbError (fst s) "krb5_kt_start_seq_get"].
Proof.
  intros s Hcc Hkt Hs.
  pose proof (Keytab_GetPrincipal_start_failure kt w Hs) as HP.
  pose proof (Keytab_GetCreds_start_failure kt w Hs) as HC.
  cbv zeta in HP, HC. fold s in HP, HC.
  unfold ServiceImpl_CreateCcache. rewrite Hcc, Hkt.
  rewrite bind_emit.
  rewrite (bind_returns _ _ _ _ (f_equal value HP)). rewrite HP.
  cbn [value after events].
  rewrite (bind_returns _ _ _ _ (f_equal value HC)). rewrite HC.
  reflexivity.
Qed.

Lemma Ccache_Create_true_writes (self : Ccache) (p : shared_ptr Principal)
    (c : shared_ptr Creds) (w : W) :
  value (Ccache_Create self p c w) = Returns true ->
  In (Native Call_cc_initialize) (events (Ccache_Create self p c w)) /\
  In (Native Call_cc_store_cred) (events (Ccache_Create self p c w)).
Proof.
  unfold Ccache_Create. destruct p, c; try discriminate.
  unfold_run. cbn [value after events fst snd].
  destruct (failed (fst (krb5_cc_initialize w _ _ _)));
    cbn [value after events fst snd app]; [discriminate|].
  split_errors; intros H; try discriminate; split; in_trace_more.
Qed.

Lemma Keytab_GetCreds_some_asks_kdc (self : Keytab) (w : W) (c : Creds) :
  value (Keytab_GetCreds self w) = Returns (Some c) ->
  In (Native Call_get_init_creds_keytab) (events (Keytab_GetCreds self w)).
Proof.
  unfold Keytab_GetCreds, shared_ptr. cbv zeta. intros H.
  destruct (bind_inv _ _ _ _ H) as (p & Hp & Hk & He). rewrite He.
  apply in_or_app. right. destruct p as [pr|]; [|discriminate].
  rewrite bind_command. cbn [events app]. left. reflexivity.
Qed.

(** X12: [CreateCcache] returns true only after the KDC was asked for a
    ticket from the key table and the cache was both initialized and
    written: a true result never comes from a run that left the cache
    untouched. *)
Theorem CreateCcache_true_means_written (self : ServiceImpl) (w : W) :
  value (ServiceImpl_CreateCcache self w) = Returns true ->
  let ev := events (ServiceImpl_CreateCcache self w) in
  In (Native Call_get_init_creds_keytab) ev /\
  In (Native Call_cc_initialize) ev /\
  In (Native Call_cc_store_cred) ev.
Proof.
  unfold ServiceImpl_CreateCcache, shared_ptr.
  destruct (svc_ccache_ self) as [cc|]; [|discriminate].
  destruct (svc_keytab_ self) as [kt|]; [|discriminate].
  intros H. cbv zeta.
  destruct (bind_inv _ _ _ _ H) as (u & _ & H1 & E1). rewrite E1.
  cbn [emit after] in H1 |- *.
  destruct (bind_inv _ _ _ _ H1) as (p & Hp & H2 & E2). rewrite E2.
  pose proof (readonly_after _ w (Keytab_GetPrincipal_readonly kt)) as R.
  unfold shared_ptr in R. rewrite R in H2 |- *. clear R.
  destruct (bind_inv _ _ _ _ H2) as (c & Hc & H3 & E3). rewrite E3.
  destruct (bind_inv _ _ _ _ H3) as (res & Hr & H4 & E4). rewrite E4.
  destruct (bind_inv _ _ _ _ H4) as (u' & _ & H5 & _).
  cbn [ret value] in H5. injection H5 as ->.
  destruct (Ccache_Create_true_writes _ _ _ _ Hr) as [I1 I2].
  assert (Hsome : exists c', c = Some c').
  { unfold Ccache_Create in Hr. destruct p, c; try discriminate.
    eexists. reflexivity. }
  destruct Hsome as [c' ->].
  pose proof (Keytab_GetCreds_some_asks_kdc _ _ _ Hc) as I0.
  repeat split;
    apply in_or_app; right; apply in_or_app; right; apply in_or_app;
    [left; exact I0
    | right; apply in_or_app; left; exact I1
    | right; apply in_or_app; left; exact I2].
Qed.

(** *** ServiceImpl::UpdateCcache *)

Lemma CreateCcache_asks_no_renewal (self : ServiceImpl) :
  avoids is_renewal (ServiceImpl_CreateCcache self).
Proof. unfold_program. av. Qed.

Lemma reads_ask_no_renewal (cc : Ccache) (c : Creds) :
  avoids is_renewal (FileInterface_FileExists (Ccache_base cc)) /\
  avoids is_renewal (Ccache_GetCreds cc) /\
  avoids (W := W) is_renewal (Creds_State c).
Proof. repeat split; unfold_program; av. Qed.

Lemma Ccache_side_leaves_keytab (cc : Ccache) (c : Creds) (text : string) :
  avoids touches_keytab (FileInterface_FileExists (Ccache_base cc)) /\
  avoids touches_keytab (Ccache_GetCreds cc) /\
  avoids (W := W) touches_keytab (Creds_State c) /\
  avoids touches_keytab (Ccache_Update cc) /\
  avoids touches_keytab (log_times cc text).
Proof. repeat split; unfold_program; av. Qed.

Lemma log_times_returns (cc : Ccache) (text : string) (w : W) (c : Creds) :
  value (Ccache_GetCreds cc w) = Returns (Some c) ->
  value (log_times cc text w) = Returns tt.
Proof.
  intros H. unfold log_times. rewrite (bind_returns _ _ _ _ H).
  reflexivity.
Qed.

(** X13: with the cache file present and the cached ticket in state
    [Reinit], [UpdateCcache] is [CreateCcache] run in the same world, after
    the existence test, the read of the ticket and the read of the clock;
    no renewal is asked for anywhere in the run. *)
Theorem UpdateCcache_reinit_bypasses_renewal (self : ServiceImpl)
    (cc : Ccache) (c : Creds) (w : W) :
  let create := ServiceImpl_CreateCcache self w in
  svc_ccache_ self = Some cc ->
  value (FileInterface_FileExists (Ccache_base cc) w) = Returns true ->
  value (Ccache_GetCreds cc w) = Returns (Some c) ->
  value (Creds_State c w) = Returns State_Reinit ->
  ServiceImpl_UpdateCcache self w
  = Run (value create) (after create)
        (events (FileInterface_FileExists (Ccache_base cc) w)
         ++ events (Ccache_GetCreds cc w)
         ++ events (Creds_State c w)
         ++ events create) /\
  never is_renewal (events (ServiceImpl_UpdateCcache self w)) = true.
Proof.
  intros create Hcc Hex Hcr Hst.
  assert (E : ServiceImpl_UpdateCcache self w
              = Run (value create) (after create)
                    (events (FileInterface_FileExists (Ccache_base cc) w)
                     ++ events (Ccache_GetCreds cc w)
                     ++ events (Creds_State c w)
                     ++ events create)).
  { unfold ServiceImpl_UpdateCcache. rewrite Hcc.
    rewrite (bind_returns _ _ _ _ Hex).
    rewrite (readonly_after _ w (FileExists_readonly _)).
    cbn [negb value after events].
    rewrite (bind_returns _ _ _ _ Hcr).
    rewrite (readonly_after _ w (Ccache_GetCreds_readonly _)).
    cbn [value after events].
    rewrite (bind_returns _ _ _ _ Hst).
    rewrite (readonly_after _ w (Creds_State_readonly c)).
    reflexivity. }
  split; [exact E|]. rewrite E. cbn [events].
  destruct (reads_ask_no_renewal cc c) as (R1 & R2 & R3).
  rewrite !never_app, R1, R2, R3. subst create.
  rewrite (CreateCcache_asks_no_renewal self w). reflexivity.
Qed.

(** X14: when the cache file exists and no ticket can be read from it,
    [UpdateCcache] returns false and stops there: it does not fall back to
    [CreateCcache], makes no mutating call and leaves the world as it
    was. *)
Theorem UpdateCcache_unreadable_cache (self : ServiceImpl) (cc : Ccache)
    (w : W) :
  svc_ccache_ self = Some cc ->
  value (FileInterface_FileExists (Ccache_base cc) w) = Returns true ->
  value (Ccache_GetCreds cc w) = Returns None ->
  ServiceImpl_UpdateCcache self w
  = Run (Returns false) w
        (events (FileInterface_FileExists (Ccache_base cc) w)
         ++ events (Ccache_GetCreds cc w)) /\
  quiet (events (ServiceImpl_UpdateCcache self w)) = true /\
  never touches_keytab (events (ServiceImpl_UpdateCcache self w)) = true.
Proof.
  intros Hcc Hex Hcr.
  assert (E : ServiceImpl_UpdateCcache self w
              = Run (Returns false) w
                    (events (FileInterface_FileExists (Ccache_base cc) w)
                     ++ events (Ccache_GetCreds cc w))).
  { unfold ServiceImpl_UpdateCcache. rewrite Hcc.
    rewrite (bind_returns _ _ _ _ Hex).
    rewrite (readonly_after _ w (FileExists_readonly _)).
    cbn [negb value after events].
    rewrite (bind_returns _ _ _ _ Hcr).
    rewrite (readonly_after _ w (Ccache_GetCreds_readonly _)).
    cbn [ret value after events]. rewrite app_nil_r. reflexivity. }
  split; [exact E|]. rewrite E. cbn [events].
  destruct (Ccache_side_leaves_keytab cc
              (Creds_new None junk_creds) "") as (K1 & K2 & _).
  rewrite quiet_app, never_app, K1, K2.
  rewrite (readonly_quiet _ w (FileExists_readonly _)).
  rewrite (readonly_quiet _ w (Ccache_GetCreds_readonly _)).
  split; reflexivity.
Qed.

(** X15: when the ticket is in state [Renew], the renewal succeeds and the
    renewed ticket can be read back, [UpdateCcache] returns true and the
    run never touches the key table: no cursor is opened and
    [krb5_get_init_creds_keytab] is not called. *)
Theorem UpdateCcache_renewal_leaves_keytab (self : ServiceImpl)
    (cc : Ccache) (c c' : Creds) (w : W) :
  svc_ccache_ self = Some cc ->
  value (FileInterface_FileExists (Ccache_base cc) w) = Returns true ->
  value (Ccache_GetCreds cc w) = Returns (Some c) ->
  value (Creds_State c w) = Returns State_Renew ->
  value (Ccache_Update cc w) = Returns true ->
  value (Ccache_GetCreds cc (after (Ccache_Update cc w)))
  = Returns (Some c') ->
  value (ServiceImpl_UpdateCcache self w) = Returns true /\
  never touches_keytab (events (ServiceImpl_UpdateCcache self w)) = true.
Proof.
  intros Hcc Hex Hcr Hst Hup Hback.
  pose proof (log_times_returns cc ("Creds time" ++ nl)%string _ _ Hback)
    as Hlog.
  destruct (Ccache_side_leaves_keytab cc c ("Creds time" ++ nl)%string)
    as (K1 & K2 & K3 & K4 & K5).
  unfold ServiceImpl_UpdateCcache. rewrite Hcc.
  rewrite (bind_returns _ _ _ _ Hex).
  rewrite (readonly_after _ w (FileExists_readonly _)).
  cbn [negb value after events].
  rewrite (bind_returns _ _ _ _ Hcr).
  rewrite (readonly_after _ w (Ccache_GetCreds_readonly _)).
  cbn [value after events].
  rewrite (bind_returns _ _ _ _ Hst).
  rewrite (readonly_after _ w (Creds_State_readonly c)).
  cbn [value after events].
  rewrite bind_emit. cbn [value after events].
  rewrite (bind_returns _ _ _ _ Hup). cbn [value after events].
  rewrite (bind_returns _ _ _ _ Hlog). cbn [ret value after events].
  split; [reflexivity|].
  rewrite !never_app, K1, K2, K3, K4, K5. reflexivity.
Qed.

(** *** The constructors of the stores *)

Lemma Keytab_new_returns (ctx : krb5_context) (fullpath : string) (w : W) :
  exists kt ev,
    Keytab_new ctx fullpath w = Run (Returns kt) w ev /\
    context_ (Keytab_base kt) = ctx /\
    program_type_ (Keytab_base kt) = cfg_variable_or w "system/type" "manual".
Proof.
  pose proof (FileInterface_Init_run _ _ (FileInterface_new ctx fullpath)
                w _ _ _ _ (Keytab_DefaultName_run ctx w)
                (Keytab_ConfigName_run w)) as HI.
  cbv zeta in HI. unfold Keytab_new.
  rewrite (bind_returns _ _ w _ (f_equal value HI)). rewrite HI.
  cbn [value after events]. unfold_run. cbn [value after events fst snd].
  split_errors; eexists; eexists; (split; [reflexivity|]);
    split; reflexivity.
Qed.

Lemma Ccache_new_returns (ctx : krb5_context) (fullpath : string) (w : W) :
  exists cc w' ev,
    Ccache_new ctx fullpath w = Run (Returns cc) w' ev /\
    context_ (Ccache_base cc) = ctx /\
    program_type_ (Ccache_base cc) = cfg_variable_or w "system/type" "manual".
Proof.
  pose proof (FileInterface_Init_run _ _ (FileInterface_new ctx fullpath)
                w _ _ _ _ (Ccache_DefaultName_run ctx w)
                (Ccache_ConfigName_run w)) as HI.
  cbv zeta in HI. unfold Ccache_new.
  rewrite (bind_returns _ _ w _ (f_equal value HI)). rewrite HI.
  cbn [value after events]. unfold_run. cbn [value after events fst snd].
  split_errors; eexists; eexists; eexists; (split; [reflexivity|]);
    split; reflexivity.
Qed.

End MoreProperties.

Section LifecycleProperties.
Context {W : Type} {lib : Krb5Lib W} {life : Krb5Lifecycle W}.

(** X16: the constructor of [ServiceImpl] always returns, with both stores
    or with none: both, sharing the context [krb5_init_context] gave, when
    that call returns 0; none otherwise, and then [CreateCcache] and
    [UpdateCcache] of that service return false in every world without a
    library call or a log line. *)
Theorem ServiceImpl_new_both_or_none (keytab ccache : string) (w : W) :
  let init := krb5_init_context w in
  exists s,
    value (ServiceImpl_new keytab ccache w) = Returns s /\
    (fst init = 0 ->
     exists kt cc,
       s = {| svc_keytab_ := Some kt; svc_ccache_ := Some cc |} /\
       context_ (Keytab_base kt) = snd init /\
       context_ (Ccache_base cc) = snd init) /\
    (fst init <> 0 ->
     s = {| svc_keytab_ := None; svc_ccache_ := None |} /\
     after (ServiceImpl_new keytab ccache w) = w /\
     forall w',
       ServiceImpl_CreateCcache s w' = Run (Returns false) w' [] /\
       ServiceImpl_UpdateCcache s w' = Run (Returns false) w' []).
Proof.
  intros init. unfold ServiceImpl_new. fold init.
  destruct (Z.eqb_spec (fst init) 0) as [E|E].
  - destruct (Keytab_new_returns (snd init) keytab w)
      as (kt & ev1 & H1 & C1 & _).
    destruct (Ccache_new_returns (snd init) ccache w)
      as (cc & w' & ev2 & H2 & C2 & _).
    rewrite (bind_returns _ _ w _ (f_equal value H1)). rewrite H1.
    cbn [value after events].
    rewrite (bind_returns _ _ w _ (f_equal value H2)). rewrite H2.
    cbn [ret value after events].
    eexists. split; [reflexivity|]. split; [|contradiction].
    intros _. exists kt, cc. repeat split; assumption.
  - eexists. cbn [value after]. split; [reflexivity|].
    split; [contradiction|]. intros _. repeat split.
Qed.

(** X17: the program type read from the configuration when the cache
    object is built decides what its destructor does in any later world:
    with no context or no cache handle it does nothing; otherwise it closes
    the cache when the type was ["manual"] and destroys it when it was
    anything else, and reports the error of that one call. *)
Theorem Ccache_teardown_follows_mode (ctx : krb5_context) (fullpath : string)
    (w : W) :
  let manual :=
    (cfg_variable_or w "system/type" "manual" =? "manual")%string in
  exists cc,
    value (Ccache_new ctx fullpath w) = Returns cc /\
    forall w',
      let r := if manual
               then krb5_cc_close w' ctx (ccache_ cc)
               else krb5_cc_destroy w' ctx (ccache_ cc) in
      Ccache_destructor cc w'
      = if is_null ctx || is_null (ccache_ cc)
        then ([], w')
        else ((if manual then Td_cc_close else Td_cc_destroy)
              :: (if failed (fst r)
                  then [Td_error (fst r)
                          "Ошибка закрытия или удаления Ccache"]
                  else []),
              snd r).
Proof.
  intros manual.
  destruct (Ccache_new_returns ctx fullpath w)
    as (cc & w1 & ev & H & C & P).
  exists cc. split; [rewrite H; reflexivity|].
  intros w' r. subst r. unfold Ccache_destructor, FileInterface_ProgramType.
  rewrite C, P. fold manual.
  destruct (is_null ctx), (is_null (ccache_ cc)); cbn [negb andb orb];
    try reflexivity.
  destruct manual; cbn [negb]; reflexivity.
Qed.

End LifecycleProperties.

(** ** The further properties on concrete states *)

(** The ticket of [sim_creds_expired] ends at 1600: Valid at 1000, to be
    renewed at 2000. *)
Lemma Creds_State_monotone_witness :
  (snd (krb5_timeofday (sim_world 1000 None)
          (Creds_context_ sim_creds_expired))
   <= snd (krb5_timeofday (sim_world 2000 None)
             (Creds_context_ sim_creds_expired)) /\
   value (Creds_State sim_creds_expired (sim_world 1000 None))
   = Returns State_None /\
   value (Creds_State sim_creds_expired (sim_world 2000 None))
   = Returns State_Renew) /\
  (State_rank State_None <= State_rank State_Renew)%nat.
Proof.
  assert (H1 : snd (krb5_timeofday (sim_world 1000 None)
                      (Creds_context_ sim_creds_expired))
               <= snd (krb5_timeofday (sim_world 2000 None)
                         (Creds_context_ sim_creds_expired)))
    by (vm_compute; discriminate).
  assert (H2 : value (Creds_State sim_creds_expired (sim_world 1000 None))
               = Returns State_None) by (vm_compute; reflexivity).
  assert (H3 : value (Creds_State sim_creds_expired (sim_world 2000 None))
               = Returns State_Renew) by (vm_compute; reflexivity).
  split; [split; [exact H1 | split; [exact H2 | exact H3]]|].
  exact (Creds_State_monotone sim_creds_expired (sim_world 1000 None)
           (sim_world 2000 None) State_None State_Renew H1 H2 H3).
Defined.


(** No cache file: the principal of the cache cannot be read. *)
Lemma Ccache_GetCreds_without_client_witness :
  fst (krb5_cc_get_principal (sim_world 1000 None) (Some 7%N) (Some 2%N))
  = KRB5_FCC_NOFILE /\
  Ccache_GetCreds sim_ccache_obj (sim_world 1000 None)
  = Run (Returns None) (sim_world 1000 None)
        [Native Call_cc_get_principal;
         KrbError KRB5_FCC_NOFILE "krb5_cc_get_principal"].
Proof.
  assert (H1 : fst (krb5_cc_get_principal (sim_world 1000 None)
                      (context_ (Ccache_base sim_ccache_obj))
                      (ccache_ sim_ccache_obj)) <> 0)
    by (vm_compute; discriminate).
  split; [reflexivity|].
  exact (Ccache_GetCreds_without_client sim_ccache_obj (sim_world 1000 None)
           H1).
Defined.

(** The cache holds the ticket of [svc_name] for its realm. *)
Lemma Ccache_GetCreds_lookup_witness :
  (fst (krb5_cc_get_principal sim_world_valid (Some 7%N) (Some 2%N)) = 0 /\
   snd (krb5_copy_principal sim_world_valid (Some 7%N) (Some svc_name))
   = Some svc_name /\
   fst (krb5_build_principal_ext sim_world_valid (Some 7%N) "EXAMPLE.ORG"
          [KRB5_TGS_NAME; "EXAMPLE.ORG"]) = 0) /\
  value (Ccache_GetCreds sim_ccache_obj sim_world_valid)
  = Returns (Some sim_creds_valid).
Proof.
  split; [repeat split|].
  assert (H1 : fst (krb5_cc_get_principal sim_world_valid
                      (context_ (Ccache_base sim_ccache_obj))
                      (ccache_ sim_ccache_obj)) = 0) by reflexivity.
  assert (H2 : snd (krb5_copy_principal sim_world_valid
                      (context_ (Ccache_base sim_ccache_obj))
                      (snd (krb5_cc_get_principal sim_world_valid
                              (context_ (Ccache_base sim_ccache_obj))
                              (ccache_ sim_ccache_obj))))
               = Some svc_name) by reflexivity.
  assert (H3 : fst (krb5_build_principal_ext sim_world_valid
                      (context_ (Ccache_base sim_ccache_obj))
                      (realm svc_name) [KRB5_TGS_NAME; realm svc_name]) = 0)
    by reflexivity.
  exact (proj1 (Ccache_GetCreds_lookup sim_ccache_obj sim_world_valid
                  svc_name H1 H2 H3)).
Defined.

(** The cache file holds a principal and no ticket. *)
Lemma Ccache_Update_unreadable_cache_witness :
  value (Ccache_GetCreds sim_ccache_obj sim_world_empty_cache)
  = Returns None /\
  value (Ccache_Update sim_ccache_obj sim_world_empty_cache)
  = Returns false /\
  after (Ccache_Update sim_ccache_obj sim_world_empty_cache)
  = sim_world_empty_cache /\
  never is_renewal
    (events (Ccache_Update sim_ccache_obj sim_world_empty_cache)) = true /\
  never writes_cache
    (events (Ccache_Update sim_ccache_obj sim_world_empty_cache)) = true.
Proof.
  assert (H1 : value (Ccache_GetCreds sim_ccache_obj sim_world_empty_cache)
               = Returns None) by (vm_compute; reflexivity).
  split; [exact H1|].
  exact (Ccache_Update_unreadable_cache sim_ccache_obj sim_world_empty_cache
           H1).
Defined.

(** The KDC refuses to renew the cached ticket. *)
Lemma Ccache_Update_failed_renewal_witness :
  (value (Ccache_GetPrincipal sim_ccache_obj sim_world_renew_refused)
   = Returns (Some sim_principal_obj) /\
   value (Ccache_GetCreds sim_ccache_obj sim_world_renew_refused)
   = Returns (Some sim_creds_expired) /\
   fst (fst (krb5_get_renewed_creds sim_world_renew_refused (Some 7%N)
               (Creds_Ptr sim_creds_expired) (Some svc_name) (Some 2%N)))
   = KRB5KDC_ERR_BADOPTION) /\
  value (Ccache_Update sim_ccache_obj sim_world_renew_refused)
  = Returns false /\
  after (Ccache_Update sim_ccache_obj sim_world_renew_refused)
  = sim_world_renew_refused /\
  never writes_cache
    (events (Ccache_Update sim_ccache_obj sim_world_renew_refused)) = true /\
  In (KrbError KRB5KDC_ERR_BADOPTION "krb5_get_renewed_creds")
     (events (Ccache_Update sim_ccache_obj sim_world_renew_refused)).
Proof.
  assert (H1 : value (Ccache_GetPrincipal sim_ccache_obj
                        sim_world_renew_refused)
               = Returns (Some sim_principal_obj))
    by (vm_compute; reflexivity).
  assert (H2 : value (Ccache_GetCreds sim_ccache_obj sim_world_renew_refused)
               = Returns (Some sim_creds_expired))
    by (vm_compute; reflexivity).
  assert (H3 : fst (fst (krb5_get_renewed_creds sim_world_renew_refused
                           (context_ (Ccache_base sim_ccache_obj))
                           (Creds_Ptr sim_creds_expired)
                           (Principal_Ptr sim_principal_obj)
                           (ccache_ sim_ccache_obj))) <> 0)
    by (vm_compute; discriminate).
  split; [split; [exact H1 | split; [exact H2 | reflexivity]]|].
  exact (Ccache_Update_failed_renewal sim_ccache_obj sim_world_renew_refused
           sim_principal_obj sim_creds_expired H1 H2 H3).
Defined.

(** The KDC renews: the ticket written to the cache is the renewed one. *)
Lemma Ccache_Update_stores_renewed_witness :
  (value (Ccache_GetPrincipal sim_ccache_obj sim_world_renewable)
   = Returns (Some sim_principal_obj) /\
   value (Ccache_GetCreds sim_ccache_obj sim_world_renewable)
   = Returns (Some sim_creds_expired) /\
   krb5_get_renewed_creds sim_world_renewable (Some 7%N)
     (Creds_Ptr sim_creds_expired) (Some svc_name) (Some 2%N)
   = ((0, creds_ sim_creds_renewed), sim_world_renewable)) /\
  value (Ccache_Update sim_ccache_obj sim_world_renewable)
  = value (Ccache_Create sim_ccache_obj (Some sim_principal_obj)
             (Some sim_creds_renewed) sim_world_renewable) /\
  sim_cache (after (Ccache_Update sim_ccache_obj sim_world_renewable))
  = Some (svc_name, [creds_ sim_creds_renewed]).
Proof.
  assert (H1 : value (Ccache_GetPrincipal sim_ccache_obj sim_world_renewable)
               = Returns (Some sim_principal_obj))
    by (vm_compute; reflexivity).
  assert (H2 : value (Ccache_GetCreds sim_ccache_obj sim_world_renewable)
               = Returns (Some sim_creds_expired))
    by (vm_compute; reflexivity).
  assert (H3 : fst (fst (krb5_get_renewed_creds sim_world_renewable
                           (context_ (Ccache_base sim_ccache_obj))
                           (Creds_Ptr sim_creds_expired)
                           (Principal_Ptr sim_principal_obj)
                           (ccache_ sim_ccache_obj))) = 0) by reflexivity.
  split; [split; [exact H1 | split; [exact H2 | reflexivity]]|].
  rewrite (Ccache_Update_stores_renewed sim_ccache_obj sim_world_renewable
             sim_principal_obj sim_creds_expired H1 H2 H3).
  split; reflexivity.
Defined.

(** The key table cannot be opened. *)
Lemma CreateCcache_unreadable_keytab_witness :
  (svc_ccache_ sim_service = Some sim_ccache_obj /\
   svc_keytab_ sim_service = Some sim_keytab_obj /\
   fst (krb5_kt_start_seq_get sim_world_unreadable_keytab (Some 7%N)
          (Some 1%N)) = KRB5_KT_NOTFOUND) /\
  ServiceImpl_CreateCcache sim_service sim_world_unreadable_keytab
  = Run (Returns false) sim_world_unreadable_keytab
        [LogInfo "Создание Ccache";
         Native Call_kt_start_seq_get;
         KrbError KRB5_KT_NOTFOUND "krb5_kt_start_seq_get";
         Native Call_kt_start_seq_get;
         KrbError KRB5_KT_NOTFOUND "krb5_kt_start_seq_get"].
Proof.
  assert (H1 : fst (krb5_kt_start_seq_get sim_world_unreadable_keytab
                      (context_ (Keytab_base sim_keytab_obj))
                      (keytab_ sim_keytab_obj)) <> 0)
    by (vm_compute; discriminate).
  split; [repeat split|].
  exact (CreateCcache_unreadable_keytab sim_service sim_ccache_obj
           sim_keytab_obj sim_world_unreadable_keytab eq_refl eq_refl H1).
Defined.

(** A first issue: no cache yet, key table and KDC in order. *)
Lemma CreateCcache_true_means_written_witness :
  value (ServiceImpl_CreateCcache sim_service (sim_world 1000 None))
  = Returns true /\
  In (Native Call_get_init_creds_keytab)
     (events (ServiceImpl_CreateCcache sim_service (sim_world 1000 None))) /\
  In (Native Call_cc_initialize)
     (events (ServiceImpl_CreateCcache sim_service (sim_world 1000 None))) /\
  In (Native Call_cc_store_cred)
     (events (ServiceImpl_CreateCcache sim_service (sim_world 1000 None))).
Proof.
  assert (H1 : value (ServiceImpl_CreateCcache sim_service
                        (sim_world 1000 None)) = Returns true)
    by (vm_compute; reflexivity).
  split; [exact H1|].
  exact (CreateCcache_true_means_written sim_service (sim_world 1000 None)
           H1).
Defined.

(** At time 6000 the cached ticket, renewable until 5000, is past
    renewal. *)
Lemma UpdateCcache_reinit_bypasses_renewal_witness :
  (svc_ccache_ sim_service = Some sim_ccache_obj /\
   value (FileInterface_FileExists (Ccache_base sim_ccache_obj)
            sim_world_past_renewal) = Returns true /\
   value (Ccache_GetCreds sim_ccache_obj sim_world_past_renewal)
   = Returns (Some sim_creds_expired) /\
   value (Creds_State sim_creds_expired sim_world_past_renewal)
   = Returns State_Reinit) /\
  value (ServiceImpl_UpdateCcache sim_service sim_world_past_renewal)
  = value (ServiceImpl_CreateCcache sim_service sim_world_past_renewal) /\
  never is_renewal
    (events (ServiceImpl_UpdateCcache sim_service sim_world_past_renewal))
  = true.
Proof.
  assert (H1 : value (FileInterface_FileExists (Ccache_base sim_ccache_obj)
                        sim_world_past_renewal) = Returns true)
    by (vm_compute; reflexivity).
  assert (H2 : value (Ccache_GetCreds sim_ccache_obj sim_world_past_renewal)
               = Returns (Some sim_creds_expired))
    by (vm_compute; reflexivity).
  assert (H3 : value (Creds_State sim_creds_expired sim_world_past_renewal)
               = Returns State_Reinit) by (vm_compute; reflexivity).
  split; [repeat split; assumption|].
  destruct (UpdateCcache_reinit_bypasses_renewal sim_service sim_ccache_obj
              sim_creds_expired sim_world_past_renewal eq_refl H1 H2 H3)
    as [E N].
  split; [rewrite E; reflexivity | exact N].
Defined.

(** The cache file is there and holds no ticket. *)
Lemma UpdateCcache_unreadable_cache_witness :
  (svc_ccache_ sim_service = Some sim_ccache_obj /\
   value (FileInterface_FileExists (Ccache_base sim_ccache_obj)
            sim_world_empty_cache) = Returns true /\
   value (Ccache_GetCreds sim_ccache_obj sim_world_empty_cache)
   = Returns None) /\
  value (ServiceImpl_UpdateCcache sim_service sim_world_empty_cache)
  = Returns false /\
  after (ServiceImpl_UpdateCcache sim_service sim_world_empty_cache)
  = sim_world_empty_cache /\
  quiet (events (ServiceImpl_UpdateCcache sim_service sim_world_empty_cache))
  = true /\
  never touches_keytab
    (events (ServiceImpl_UpdateCcache sim_service sim_world_empty_cache))
  = true.
Proof.
  assert (H1 : value (FileInterface_FileExists (Ccache_base sim_ccache_obj)
                        sim_world_empty_cache) = Returns true)
    by (vm_compute; reflexivity).
  assert (H2 : value (Ccache_GetCreds sim_ccache_obj sim_world_empty_cache)
               = Returns None) by (vm_compute; reflexivity).
  split; [repeat split; assumption|].
  destruct (UpdateCcache_unreadable_cache sim_service sim_ccache_obj
              sim_world_empty_cache eq_refl H1 H2) as (E & Q & K).
  split; [rewrite E; reflexivity|].
  split; [rewrite E; reflexivity|].
  split; [exact Q | exact K].
Defined.

(** The KDC renews the cached ticket at time 2000. *)
Lemma UpdateCcache_renewal_leaves_keytab_witness :
  (svc_ccache_ sim_service = Some sim_ccache_obj /\
   value (FileInterface_FileExists (Ccache_base sim_ccache_obj)
            sim_world_renewable) = Returns true /\
   value (Ccache_GetCreds sim_ccache_obj sim_world_renewable)
   = Returns (Some sim_creds_expired) /\
   value (Creds_State sim_creds_expired sim_world_renewable)
   = Returns State_Renew /\
   value (Ccache_Update sim_ccache_obj sim_world_renewable) = Returns true /\
   value (Ccache_GetCreds sim_ccache_obj
            (after (Ccache_Update sim_ccache_obj sim_world_renewable)))
   = Returns (Some sim_creds_renewed)) /\
  value (ServiceImpl_UpdateCcache sim_service sim_world_renewable)
  = Returns true /\
  never touches_keytab
    (events (ServiceImpl_UpdateCcache sim_service sim_world_renewable))
  = true.
Proof.
  assert (H1 : value (FileInterface_FileExists (Ccache_base sim_ccache_obj)
                        sim_world_renewable) = Returns true)
    by (vm_compute; reflexivity).
  assert (H2 : value (Ccache_GetCreds sim_ccache_obj sim_world_renewable)
               = Returns (Some sim_creds_expired))
    by (vm_compute; reflexivity).
  assert (H3 : value (Creds_State sim_creds_expired sim_world_renewable)
               = Returns State_Renew) by (vm_compute; reflexivity).
  assert (H4 : value (Ccache_Update sim_ccache_obj sim_world_renewable)
               = Returns true) by (vm_compute; reflexivity).
  assert (H5 : value (Ccache_GetCreds sim_ccache_obj
                        (after (Ccache_Update sim_ccache_obj
                                  sim_world_renewable)))
               = Returns (Some sim_creds_renewed))
    by (vm_compute; reflexivity).
  split; [repeat split; assumption|].
  exact (UpdateCcache_renewal_leaves_keytab sim_service sim_ccache_obj
           sim_creds_expired sim_creds_renewed sim_world_renewable
           eq_refl H1 H2 H3 H4 H5).
Defined.
